(** * msal/oauth2.py: a shallow embedding of the generic OAuth2 client

    The development follows the layout of [msal/oauth2.py]: Python values and
    dictionaries first, then the pieces of [urllib] and [requests] the module
    calls, then [Client], its grant sub-classes and [validate_authorization],
    and finally the properties of these functions.

    Conventions.
    - A Python [str] is a Rocq [string]: the sequence of the bytes of its
      UTF-8 encoding.  Concatenation, equality, [' '.join], the test
      ['?' in s], splitting at an ASCII character and percent-encoding all
      act on that byte sequence.
    - A Python [dict] is an association list in insertion order (the order
      [urlencode] serializes in); a dictionary has no two entries with one
      key, which [dict_wf] states.
    - A raised exception is the [Raise] branch of [Outcome]; the requests
      posted by a call are returned next to its outcome. *)

From Stdlib Require Import String Ascii List ZArith Bool Lia.
Import ListNotations.
Local Open Scope list_scope.
Local Open Scope string_scope.

(** ** Python values *)

(** The values that the module inspects: [None], strings, the three
    collection types that [_normalize_to_string] recognises, and any other
    object, which is only ever passed along.  A set is given by its elements
    in iteration order.  An object is given by its [repr]; with the default
    [object.__repr__] it contains the address of the object, so it
    identifies it. *)
Inductive pyval : Type :=
| VNone
| VStr (s : string)
| VList (l : list string)
| VTuple (l : list string)
| VSet (l : list string)
| VObject (repr : string).

(** [v is None] *)
Definition is_None (v : pyval) : bool :=
  match v with VNone => true | _ => false end.

(** The truth value of [v], as [if v:] tests it. *)
Definition truthy (v : pyval) : bool :=
  match v with
  | VNone => false
  | VStr s => negb (s =? "")
  | VList l | VTuple l | VSet l =>
      match l with [] => false | _ :: _ => true end
  | VObject _ => true
  end.

Fixpoint list_eqb (l1 l2 : list string) : bool :=
  match l1, l2 with
  | [], [] => true
  | x :: l1', y :: l2' => (x =? y) && list_eqb l1' l2'
  | _, _ => false
  end.

Definition mem (x : string) (l : list string) : bool :=
  existsb (String.eqb x) l.

Definition subset (l1 l2 : list string) : bool :=
  forallb (fun x => mem x l2) l1.

(** [v == w]: values of different types differ, lists and tuples are
    compared element by element, sets by their elements whatever the order,
    other objects by identity. *)
Definition py_eq (v w : pyval) : bool :=
  match v, w with
  | VNone, VNone => true
  | VStr s, VStr t => s =? t
  | VList l, VList m => list_eqb l m
  | VTuple l, VTuple m => list_eqb l m
  | VSet l, VSet m => subset l m && subset m l
  | VObject r, VObject r' => r =? r'
  | _, _ => false
  end.

(** ** Exceptions *)

Inductive exn : Type :=
| TypeError
| AssertionError
| ValueError
| HTTPError
| RequestException.

Inductive Outcome (A : Type) : Type :=
| Return (a : A)
| Raise (e : exn).
Arguments Return {A} a.
Arguments Raise {A} e.

Definition bind {A B : Type} (m : Outcome A) (f : A -> Outcome B) : Outcome B :=
  match m with
  | Return a => f a
  | Raise e => Raise e
  end.

Notation "x <- m ;; f" := (bind m (fun x => f))
  (at level 61, m at next level, right associativity).

(** ** Dictionaries *)

Definition dict : Type := list (string * pyval).

Definition keys (d : dict) : list string := map fst d.

(** [d.get(k)] before its default is applied: [None] when [k] is not a key. *)
Fixpoint dict_lookup (d : dict) (k : string) : option pyval :=
  match d with
  | [] => None
  | (k', v) :: d' => if k' =? k then Some v else dict_lookup d' k
  end.

(** [d.get(k)]: a missing key reads as [None]. *)
Definition dict_get (d : dict) (k : string) : pyval :=
  match dict_lookup d k with
  | Some v => v
  | None => VNone
  end.

(** [k in d] *)
Definition dict_has (d : dict) (k : string) : bool :=
  match dict_lookup d k with
  | Some _ => true
  | None => false
  end.

(** [d[k] = v]: an existing key keeps its place, a new one goes last. *)
Fixpoint dict_set (d : dict) (k : string) (v : pyval) : dict :=
  match d with
  | [] => [(k, v)]
  | (k', v') :: d' =>
      if k' =? k then (k', v) :: d' else (k', v') :: dict_set d' k v
  end.

(** [d.update(e)] *)
Definition dict_update (d e : dict) : dict :=
  fold_left (fun acc kv => dict_set acc (fst kv) (snd kv)) e d.

(** [{k: v for k, v in d.items() if v is not None}] *)
Definition drop_None (d : dict) : dict :=
  filter (fun kv => negb (is_None (snd kv))) d.

(** [d] without the key [k] *)
Definition dict_del (d : dict) (k : string) : dict :=
  filter (fun kv => negb (fst kv =? k)) d.

Fixpoint nodupb (l : list string) : bool :=
  match l with
  | [] => true
  | x :: l' => negb (mem x l') && nodupb l'
  end.

(** No key occurs twice. *)
Definition dict_wf (d : dict) : bool := nodupb (keys d).

(** ** The built-ins [str], [repr] and [' '.join] *)

Definition byte (n : N) : ascii := ascii_of_N n.

Definition code (c : ascii) : N := N_of_ascii c.

Definition between (lo hi : N) (c : ascii) : bool :=
  (lo <=? code c)%N && (code c <=? hi)%N.

(** The hexadecimal digit of [n < 16]; [a] is the letter that stands for
    ten ("A" or "a"). *)
Definition hex_digit (a : ascii) (n : N) : ascii :=
  if (n <? 10)%N then byte (48 + n) else byte (code a + (n - 10)).

Definition hex2 (a : ascii) (c : ascii) : string :=
  String (hex_digit a (code c / 16)) (String (hex_digit a (code c mod 16)) "").

(** [sep.join(l)] *)
Fixpoint join (sep : string) (l : list string) : string :=
  match l with
  | [] => ""
  | [x] => x
  | x :: l' => x ++ sep ++ join sep l'
  end.

Fixpoint contains_char (c : ascii) (s : string) : bool :=
  match s with
  | EmptyString => false
  | String c' s' => Ascii.eqb c' c || contains_char c s'
  end.

Definition squote : ascii := byte 39.
Definition dquote : ascii := byte 34.
Definition backslash : ascii := byte 92.

Fixpoint repr_chars (q : ascii) (s : string) : string :=
  match s with
  | EmptyString => ""
  | String c s' =>
      (if Ascii.eqb c q || Ascii.eqb c backslash
       then String backslash (String c "")
       else if Ascii.eqb c (byte 9) then String backslash "t"
       else if Ascii.eqb c (byte 10) then String backslash "n"
       else if Ascii.eqb c (byte 13) then String backslash "r"
       else if (code c <? 32)%N || (code c =? 127)%N
            then String backslash (String "x" (hex2 "a" c))
       else String c "")
      ++ repr_chars q s'
  end.

(** [repr(s)] for a string: in single quotes, or in double quotes when [s]
    has a single quote and no double quote; control characters escaped.
    Characters outside ASCII are taken to be printable and are kept. *)
Definition repr_str (s : string) : string :=
  let q := if contains_char squote s && negb (contains_char dquote s)
           then dquote else squote in
  String q (repr_chars q s ++ String q "").

(** [str(v)] *)
Definition py_str (v : pyval) : string :=
  match v with
  | VNone => "None"
  | VStr s => s
  | VList l => "[" ++ join ", " (map repr_str l) ++ "]"
  | VTuple [x] => "(" ++ repr_str x ++ ",)"
  | VTuple l => "(" ++ join ", " (map repr_str l) ++ ")"
  | VSet [] => "set()"
  | VSet l => "{" ++ join ", " (map repr_str l) ++ "}"
  | VObject r => r
  end.

(** ** [urllib.parse]: [quote_plus], [urlencode], [unquote], [parse_qs] *)

Module Urllib.

(** The characters that [quote] never escapes: letters, digits and [_.-~]. *)
Definition always_safe (c : ascii) : bool :=
  between 65 90 c || between 97 122 c || between 48 57 c
  || Ascii.eqb c "_" || Ascii.eqb c "." || Ascii.eqb c "-" || Ascii.eqb c "~".

Definition quote_byte (c : ascii) : string :=
  if always_safe c then String c ""
  else if Ascii.eqb c " " then "+"
  else String "%" (hex2 "A" c).

(** [quote_plus(s)], with its default [safe='']. *)
Fixpoint quote_plus (s : string) : string :=
  match s with
  | EmptyString => ""
  | String c s' => quote_byte c ++ quote_plus s'
  end.

Definition encode_item (kv : string * pyval) : string :=
  quote_plus (fst kv) ++ "=" ++ quote_plus (py_str (snd kv)).

(** [urlencode(d)] for a dictionary, with [doseq=False]. *)
Definition urlencode (d : dict) : string :=
  join "&" (map encode_item d).

Definition hex_value (c : ascii) : option N :=
  if between 48 57 c then Some (code c - 48)%N
  else if between 65 70 c then Some (code c - 55)%N
  else if between 97 102 c then Some (code c - 87)%N
  else None.

(** [unquote(s)]: every [%XX] gives the byte [XX]; a [%] that no two
    hexadecimal digits follow is kept.  Python 3 then reads the bytes of
    the escapes as UTF-8 and puts U+FFFD for what is not UTF-8 (Python 2
    keeps the bytes): this function is the one of Python 3 on the strings
    whose escapes give UTF-8, those written by [quote_plus] and those whose
    escapes are ASCII characters ([ascii_escapes]) among them. *)
Fixpoint unquote (s : string) : string :=
  match s with
  | EmptyString => ""
  | String c s1 =>
      match s1 with
      | String h (String l s2) =>
          if Ascii.eqb c "%" then
            match hex_value h, hex_value l with
            | Some x, Some y => String (byte (16 * x + y)) (unquote s2)
            | _, _ => String c (unquote s1)
            end
          else String c (unquote s1)
      | _ => String c (unquote s1)
      end
  end.

(** [s.split(c)] *)
Fixpoint split_on (c : ascii) (s : string) : list string :=
  match s with
  | EmptyString => [""]
  | String a s' =>
      if Ascii.eqb a c then "" :: split_on c s'
      else match split_on c s' with
           | w :: ws => String a w :: ws
           | [] => [String a ""]
           end
  end.

(** [s.split(c, 1)] when [c] occurs in [s]: what is before and what is
    after its first occurrence. *)
Fixpoint split_first (c : ascii) (s : string) : option (string * string) :=
  match s with
  | EmptyString => None
  | String a s' =>
      if Ascii.eqb a c then Some ("", s')
      else match split_first c s' with
           | Some (l, r) => Some (String a l, r)
           | None => None
           end
  end.

(** [s.replace('+', ' ')] *)
Fixpoint plus_to_space (s : string) : string :=
  match s with
  | EmptyString => ""
  | String a s' => String (if Ascii.eqb a "+" then " "%char else a) (plus_to_space s')
  end.

(** The loop body of [parse_qsl] for one field, with the defaults
    [keep_blank_values=False] and [strict_parsing=False]: an empty field, a
    field without [=] and a field with an empty value are skipped. *)
Definition parse_field (name_value : string) : list (string * string) :=
  match split_first "=" name_value with
  | None => []
  | Some (n, v) =>
      if v =? "" then []
      else [(unquote (plus_to_space n), unquote (plus_to_space v))]
  end.

(** [parse_qsl(qs)], with its separator [&] *)
Definition parse_qsl (qs : string) : list (string * string) :=
  flat_map parse_field (split_on "&" qs).

(** One round of the loop of [parse_qs]: the value joins the list of its
    name, or starts one. *)
Fixpoint add_value (r : list (string * list string)) (name value : string)
  : list (string * list string) :=
  match r with
  | [] => [(name, [value])]
  | (n, vs) :: r' =>
      if n =? name then (n, (vs ++ [value])%list) :: r'
      else (n, vs) :: add_value r' name value
  end.

(** [parse_qs(qs)]: every name with the list of its values. *)
Definition parse_qs (qs : string) : dict :=
  map (fun nv => (fst nv, VList (snd nv)))
      (fold_left (fun r nv => add_value r (fst nv) (snd nv)) (parse_qsl qs) []).

End Urllib.

(** ** [requests]: what is posted and what comes back *)

(** The decoded payload of a response: a JSON value. *)
#[warnings="-register-all"]
Inductive json : Type :=
| JNull
| JBool (b : bool)
| JNum (n : Z)
| JStr (s : string)
| JArr (l : list json)
| JObj (l : list (string * json)).

(** The arguments of [requests.post]. *)
Record Request : Type := mkRequest {
  url : string;
  headers : list (string * string);
  params : option dict;
  data : dict;
  auth : option (pyval * pyval)
}.

(** A response: its status and its payload, decoded when it is JSON text
    ([None] when it is not). *)
Record Response : Type := mkResponse {
  status_code : Z;
  payload : option json
}.

Module Requests.

(** [resp.raise_for_status()] raises [HTTPError] for the statuses 400 to
    599 and returns for the others. *)
Definition raise_for_status (resp : Response) : Outcome unit :=
  if (400 <=? status_code resp)%Z && (status_code resp <? 600)%Z
  then Raise HTTPError else Return tt.

(** [resp.json()] raises a [ValueError] when the payload is not JSON. *)
Definition json (resp : Response) : Outcome json :=
  match payload resp with
  | Some j => Return j
  | None => Raise ValueError
  end.

End Requests.

(** ** [class Client] *)

Record Client : Type := mkClient {
  client_id : pyval;
  client_secret : pyval;
  default_body : dict;
  authorization_endpoint : option string;
  token_endpoint : option string
}.

(** [Client.__init__]; an argument left out is [None]. *)
Definition Client_init (client_id client_secret : pyval)
    (default_body : option dict)
    (authorization_endpoint token_endpoint : option string) : Client :=
  mkClient client_id client_secret
    (match default_body with Some (kv :: d) => kv :: d | _ => [] end)
    authorization_endpoint token_endpoint.

(** [Client._normalize_to_string] *)
Definition _normalize_to_string (scope : pyval) : pyval :=
  match scope with
  | VList l | VSet l | VTuple l => VStr (join " " l)
  | _ => scope
  end.

(** The two statements [if d.get('scope'): d['scope'] = ...] that
    [_authorization_url] and [_get_token] share. *)
Definition normalize_scope (d : dict) : dict :=
  if truthy (dict_get d "scope")
  then dict_set d "scope" (_normalize_to_string (dict_get d "scope"))
  else d.

(** Lines 33 to 37 of [_authorization_url]: the parameters that are
    serialized. *)
Definition authorization_params (self : Client) (response_type : pyval)
    (kwargs : dict) : dict :=
  let params := [("client_id", client_id self); ("response_type", response_type)] in
  let params := dict_update params kwargs in
  let params := drop_None params in
  normalize_scope params.

(** [Client._authorization_url], its parameters bound.  The test
    ['?' in self.authorization_endpoint] raises a [TypeError] on [None]. *)
Definition _authorization_url (self : Client) (response_type : pyval)
    (kwargs : dict) : Outcome string :=
  let params := authorization_params self response_type kwargs in
  match authorization_endpoint self with
  | None => Raise TypeError
  | Some endpoint =>
      let sep := if contains_char "?" endpoint then "&" else "?" in
      Return (endpoint ++ sep ++ Urllib.urlencode params)
  end.

(** A call of the bound method [self._authorization_url] with the positional
    arguments [args] and the keywords [kw]; the signature of the method is
    [self, response_type, **kwargs]: [self] is already
    taken, so a keyword [self] is a second value for it; [response_type] is
    the one positional argument or else the keyword of that name, never
    both; what is left of [kw] is [kwargs]. *)
Definition call_authorization_url (self : Client) (args : list pyval)
    (kw : dict) : Outcome string :=
  if dict_has kw "self" then Raise TypeError
  else match args with
       | [] =>
           match dict_lookup kw "response_type" with
           | Some response_type =>
               _authorization_url self response_type (dict_del kw "response_type")
           | None => Raise TypeError
           end
       | [response_type] =>
           if dict_has kw "response_type" then Raise TypeError
           else _authorization_url self response_type kw
       | _ => Raise TypeError
       end.

(** Lines 46 to 53 of [_get_token]: the body of the request. *)
Definition token_body (self : Client) (grant_type : pyval) (kwargs : dict)
  : dict :=
  let data := [("client_id", client_id self); ("grant_type", grant_type)] in
  let data := dict_update data (default_body self) in
  let data := dict_update data (drop_None kwargs) in
  normalize_scope data.

(** Lines 62 to 64 of [_get_token]: the credentials of HTTP Basic Auth. *)
Definition basic_auth (self : Client) : option (pyval * pyval) :=
  if truthy (client_secret self) && truthy (client_id self)
  then Some (client_id self, client_secret self)
  else None.

(** The truth value of an endpoint: [None] and the empty string are false. *)
Definition configured (endpoint : option string) : bool :=
  match endpoint with
  | Some e => negb (e =? "")
  | None => false
  end.

Section Transport.

(** [requests.post]: the answer of the network to a request, or the
    exception it raises. *)
Variable post : Request -> Outcome Response.

(** [Client._get_token], its parameters bound: the requests posted, in
    order, and the outcome. *)
Definition _get_token (self : Client) (grant_type : pyval)
    (query : option dict) (kwargs : dict) : list Request * Outcome json :=
  let data := token_body self grant_type kwargs in
  let auth := basic_auth self in
  match token_endpoint self with
  | Some endpoint =>
      if configured (token_endpoint self) then
        let req := mkRequest endpoint [("Accept", "application/json")]
                     query data auth in
        ([req],
         resp <- post req ;;
         _ <- (if (500 <=? status_code resp)%Z
               then Requests.raise_for_status resp else Return tt) ;;
         Requests.json resp)
      else ([], Raise AssertionError)
  | None => ([], Raise AssertionError)
  end.

End Transport.

(** ** The grant sub-classes *)

(** The keywords of a call [f(k1=v1, ..., **kwargs)]: a key of [kwargs]
    that repeats a keyword written out is a [TypeError]. *)
Definition keywords (explicit kwargs : dict) : Outcome dict :=
  if existsb (dict_has explicit) (keys kwargs) then Raise TypeError
  else Return (explicit ++ kwargs)%list.

(** [AuthorizationCodeGrant.authorization_url] *)
Definition AuthorizationCodeGrant_authorization_url (self : Client)
    (redirect_uri scope state : pyval) (kwargs : dict) : Outcome string :=
  kw <- keywords [("redirect_uri", redirect_uri); ("scope", scope);
                  ("state", state)] kwargs ;;
  call_authorization_url self [VStr "code"] kw.

(** The object [self] as a value. *)
Definition self_object : pyval := VObject "<msal.oauth2.ImplicitGrant object>".

(** [locals()] in [ImplicitGrant.authorization_url]: the four parameters of
    the method, [self] first, and the cell [__class__] that a method
    naming [super] has. *)
Definition ImplicitGrant_locals (redirect_uri scope state : pyval) : dict :=
  [("self", self_object); ("redirect_uri", redirect_uri); ("scope", scope);
   ("state", state); ("__class__", VObject "<class 'msal.oauth2.ImplicitGrant'>")].

(** [ImplicitGrant.authorization_url] *)
Definition ImplicitGrant_authorization_url (self : Client)
    (redirect_uri scope state : pyval) : Outcome string :=
  call_authorization_url self [VStr "token"]
    (ImplicitGrant_locals redirect_uri scope state).

(** A call [self._get_token(grant_type, query=query, **kw)] of the bound
    method, whose signature is [self, grant_type, query=None, **kwargs].  A
    keyword [query] holds a dictionary, which no [pyval] is: it is kept apart
    from the other keywords [kw], and [None] stands for its absence, which
    is its default.  A key [self], [grant_type] or [query] of [kw] is a
    second value for that parameter. *)
Definition call_get_token (post : Request -> Outcome Response) (self : Client)
    (grant_type : pyval) (query : option dict) (kw : dict)
  : list Request * Outcome json :=
  if dict_has kw "self" || dict_has kw "grant_type" || dict_has kw "query"
  then ([], Raise TypeError)
  else _get_token post self grant_type query kw.

(** The call that every [get_token] ends with:
    [self._get_token(grant_type, k1=v1, ..., **kwargs)], the keywords
    [named] written out. *)
Definition get_token_call (post : Request -> Outcome Response) (self : Client)
    (grant_type : string) (named : dict) (query : option dict) (kwargs : dict)
  : list Request * Outcome json :=
  match keywords named kwargs with
  | Raise e => ([], Raise e)
  | Return kw => call_get_token post self (VStr grant_type) query kw
  end.

(** [Client.get_token_by_refresh_token] *)
Definition get_token_by_refresh_token (post : Request -> Outcome Response)
    (self : Client) (refresh_token scope : pyval) (query : option dict)
    (kwargs : dict) : list Request * Outcome json :=
  get_token_call post self "refresh_token"
    [("refresh_token", refresh_token); ("scope", scope)] query kwargs.

(** [AuthorizationCodeGrant.get_token] *)
Definition AuthorizationCodeGrant_get_token
    (post : Request -> Outcome Response) (self : Client)
    (code redirect_uri : pyval) (query : option dict) (kwargs : dict)
  : list Request * Outcome json :=
  get_token_call post self "authorization_code"
    [("code", code); ("redirect_uri", redirect_uri)] query kwargs.

(** [ResourceOwnerPasswordCredentialsGrant.get_token] *)
Definition ResourceOwnerPasswordCredentialsGrant_get_token
    (post : Request -> Outcome Response) (self : Client)
    (username password scope : pyval) (query : option dict) (kwargs : dict)
  : list Request * Outcome json :=
  get_token_call post self "password"
    [("username", username); ("password", password); ("scope", scope)]
    query kwargs.

(** [ClientCredentialGrant.get_token] *)
Definition ClientCredentialGrant_get_token
    (post : Request -> Outcome Response) (self : Client)
    (scope : pyval) (query : option dict) (kwargs : dict)
  : list Request * Outcome json :=
  get_token_call post self "client_credentials"
    [("scope", scope)] query kwargs.

(** ** [validate_authorization] *)

(** The argument [params]: a dictionary, or a string still to be parsed. *)
Inductive Params : Type :=
| PDict (d : dict)
| PStr (s : string).

Definition validate_authorization (params : Params) (state : pyval)
  : Outcome dict :=
  let params := match params with
                | PDict d => d
                | PStr s => Urllib.parse_qs s
                end in
  if negb (py_eq (dict_get params "state") state) then Raise ValueError
  else Return params.

(** ** Definitions that the statements use *)

(** What the two statements on [scope] do to the value under the key [k]:
    a value under [scope] that is true is normalized, any other is kept. *)
Definition normalize_at (k : string) (v : pyval) : pyval :=
  if (k =? "scope") && truthy v then _normalize_to_string v else v.

(** The merge as the specification words it: the value of the caller when
    there is one that is not [None], else the value of [default_body], else
    the value of [{client_id, grant_type}]. *)
Definition merge_spec (self : Client) (grant_type : pyval) (kwargs : dict)
    (k : string) : option pyval :=
  let configured_value :=
    match dict_lookup (default_body self) k with
    | Some w => Some w
    | None =>
        dict_lookup [("client_id", client_id self); ("grant_type", grant_type)] k
    end in
  match dict_lookup kwargs k with
  | Some v => if is_None v then configured_value else Some v
  | None => configured_value
  end.

(** What the caller supplies under the key [k]: the value given in the call
    when it is not [None], else the value of [default_body]. *)
Definition caller_value (self : Client) (kwargs : dict) (k : string)
  : option pyval :=
  match dict_lookup kwargs k with
  | Some v => if is_None v then dict_lookup (default_body self) k else Some v
  | None => dict_lookup (default_body self) k
  end.

(** The value that the update of line 34 leaves under [k]: that of the
    caller, [None] included, else that of [{client_id, response_type}]. *)
Definition updated (self : Client) (response_type : pyval) (kwargs : dict)
    (k : string) : option pyval :=
  match dict_lookup kwargs k with
  | Some v => Some v
  | None =>
      dict_lookup
        [("client_id", client_id self); ("response_type", response_type)] k
  end.

(** The elements of a list, a set or a tuple. *)
Definition elements (v : pyval) : option (list string) :=
  match v with
  | VList l | VSet l | VTuple l => Some l
  | _ => None
  end.

(** [p in s] for two strings: [p] occurs in [s]. *)
Fixpoint contains (p s : string) : bool :=
  prefix p s ||
  match s with
  | EmptyString => false
  | String _ s' => contains p s'
  end.

(** A character that [quote_plus] writes only as itself: one that it keeps
    and that is no digit of an escape [%XX]. *)
Definition plain (c : ascii) : bool :=
  Urllib.always_safe c && negb (between 48 57 c) && negb (between 65 70 c).

Fixpoint all_plain (s : string) : bool :=
  match s with
  | EmptyString => true
  | String c s' => plain c && all_plain s'
  end.

(** A string that is empty or starts with a character that [quote_plus]
    never writes as itself, such as [=] and [&]. *)
Definition delimited (t : string) : bool :=
  match t with
  | EmptyString => true
  | String c _ => negb (Urllib.always_safe c)
  end.

(** An entry that shows no [None]: its key has none, and its value is
    [None] itself (which is dropped) or prints, once normalized, without. *)
Definition clean (kv : string * pyval) : bool :=
  negb (contains "None" (fst kv)) &&
  (is_None (snd kv) ||
   negb (contains "None" (py_str (normalize_at (fst kv) (snd kv))))).

(** The names that a call of [_get_token] cannot take as extra keywords. *)
Definition reserved : list string := ["self"; "grant_type"; "query"].

(** None of the names [names] is a key of [d]. *)
Definition free_of (names : list string) (d : dict) : bool :=
  forallb (fun n => negb (dict_has d n)) names.

(** The value of [default_body] under [k], or else [v]. *)
Definition default_or (self : Client) (k : string) (v : option pyval)
  : option pyval :=
  match dict_lookup (default_body self) k with
  | Some w => Some w
  | None => v
  end.

(** ** Clients and transports of the examples *)

(** A public client: no secret, both endpoints configured. *)
Definition public_client : Client :=
  Client_init (VStr "cid") VNone None
    (Some "https://login.example.com/authorize")
    (Some "https://login.example.com/token").

(** A confidential client whose [default_body] holds a scope and a
    resource. *)
Definition confidential_client : Client :=
  Client_init (VStr "cid") (VStr "s3cr3t")
    (Some [("scope", VStr "default"); ("resource", VStr "api")])
    (Some "https://login.example.com/authorize?tenant=t1")
    (Some "https://login.example.com/token").

(** A client with no endpoint. *)
Definition bare_client : Client :=
  Client_init (VStr "cid") VNone None None None.

(** A network that answers every request with [resp]. *)
Definition answer (resp : Response) : Request -> Outcome Response :=
  fun _ => Return resp.

Definition invalid_scope : json := JObj [("error", JStr "invalid_scope")].

(** The keywords of a token request that leaves the scope to
    [default_body] and overrides its resource. *)
Definition token_keywords : dict :=
  [("code", VStr "xyz"); ("scope", VNone); ("resource", VStr "mail")].

(** The request that [confidential_client] posts for these keywords. *)
Definition token_request : Request :=
  mkRequest "https://login.example.com/token"
    [("Accept", "application/json")] None
    [("client_id", VStr "cid"); ("grant_type", VStr "authorization_code");
     ("scope", VStr "default"); ("resource", VStr "mail");
     ("code", VStr "xyz")]
    (Some (VStr "cid", VStr "s3cr3t")).

(** A client whose [default_body] names the resource and a grant type of
    its own. *)
Definition resource_client : Client :=
  Client_init (VStr "cid") VNone
    (Some [("resource", VStr "api"); ("grant_type", VStr "custom")])
    None (Some "https://login.example.com/token").

(** The request that [public_client] posts for the password of a user and
    the scopes [a] and [b]. *)
Definition password_request : Request :=
  mkRequest "https://login.example.com/token"
    [("Accept", "application/json")] None
    [("client_id", VStr "cid"); ("grant_type", VStr "password");
     ("username", VStr "joe"); ("password", VStr "pw"); ("scope", VStr "a b")]
    None.

(** The request that [confidential_client] posts for a code, with no
    redirection URI. *)
Definition code_request : Request :=
  mkRequest "https://login.example.com/token"
    [("Accept", "application/json")] (Some [("api-version", VStr "1.0")])
    [("client_id", VStr "cid"); ("grant_type", VStr "authorization_code");
     ("scope", VStr "default"); ("resource", VStr "api");
     ("code", VStr "xyz")]
    (Some (VStr "cid", VStr "s3cr3t")).

(** The request that [resource_client] posts for a refresh token. *)
Definition refresh_request : Request :=
  mkRequest "https://login.example.com/token"
    [("Accept", "application/json")] None
    [("client_id", VStr "cid"); ("grant_type", VStr "custom");
     ("resource", VStr "api"); ("refresh_token", VStr "rt")]
    None.

(** The request that [public_client] posts for its own credentials and the
    scope [read write]. *)
Definition credentials_request : Request :=
  mkRequest "https://login.example.com/token"
    [("Accept", "application/json")] None
    [("client_id", VStr "cid"); ("grant_type", VStr "client_credentials");
     ("scope", VStr "read write")]
    None.

(** The names that [AuthorizationCodeGrant.authorization_url] cannot take
    as extra keywords: those it writes out, and the two parameters of
    [_authorization_url]. *)
Definition authorization_reserved : list string :=
  ["redirect_uri"; "scope"; "state"; "self"; "response_type"].

(** A network that is down. *)
Definition unreachable : Request -> Outcome Response :=
  fun _ => Raise RequestException.

(** The fields that [parse_qsl] reads: the entries of a dictionary with
    their values printed, those that print as the empty string left out. *)
Definition printed_fields (d : dict) : list (string * string) :=
  flat_map (fun kv => if py_str (snd kv) =? "" then []
                      else [(fst kv, py_str (snd kv))]) d.

(** The values of the name [k] among fields, in order. *)
Definition values_of (k : string) (fields : list (string * string))
  : list string :=
  map snd (filter (fun nv => fst nv =? k) fields).

(** Every escape [%XX] that [unquote] decodes in [s] is an ASCII
    character: [XX] is below 80. *)
Fixpoint ascii_escapes (s : string) : bool :=
  match s with
  | EmptyString => true
  | String c s1 =>
      match s1 with
      | String h (String l s2) =>
          if Ascii.eqb c "%" then
            match Urllib.hex_value h, Urllib.hex_value l with
            | Some x, Some y => (16 * x + y <? 128)%N && ascii_escapes s2
            | _, _ => ascii_escapes s1
            end
          else ascii_escapes s1
      | _ => ascii_escapes s1
      end
  end.

(** The values gathered so far for the name [k]. *)
Fixpoint gathered (r : list (string * list string)) (k : string)
  : option (list string) :=
  match r with
  | [] => None
  | (n, vs) :: r' => if n =? k then Some vs else gathered r' k
  end.

(** The state that [validate_authorization] reads from a string: [None]
    when the string has no [state], else the list of its values. *)
Definition state_of (qs : string) : pyval :=
  match values_of "state" (Urllib.parse_qsl qs) with
  | [] => VNone
  | v :: vs => VList (v :: vs)
  end.

(** * Properties *)

(** ** Dictionaries *)

Section DictFacts.

Implicit Types (d e : dict) (k : string) (v : pyval).

Lemma lookup_None_mem d k :
  dict_lookup d k = None <-> mem k (keys d) = false.
Proof.
  induction d as [|[k' v'] d IH]; simpl; [tauto|].
  rewrite (String.eqb_sym k k').
  destruct (k' =? k); simpl; [split; discriminate | exact IH].
Qed.

Lemma lookup_set d k v k' :
  dict_lookup (dict_set d k v) k' =
  if k =? k' then Some v else dict_lookup d k'.
Proof.
  induction d as [|[k0 v0] d IH]; simpl.
  - reflexivity.
  - destruct (k0 =? k) eqn:E0; simpl.
    + apply String.eqb_eq in E0; subst k0.
      destruct (k =? k'); reflexivity.
    + destruct (k0 =? k') eqn:E1.
      * apply String.eqb_eq in E1; subst k0. rewrite String.eqb_sym, E0.
        reflexivity.
      * exact IH.
Qed.

Lemma wf_cons k v d :
  dict_wf ((k, v) :: d) = true ->
  dict_lookup d k = None /\ dict_wf d = true.
Proof.
  unfold dict_wf; simpl. intros H.
  apply andb_true_iff in H as [H1 H2]. split; [|exact H2].
  apply lookup_None_mem. now apply negb_true_iff.
Qed.

Lemma lookup_update d e k :
  dict_wf e = true ->
  dict_lookup (dict_update d e) k =
  match dict_lookup e k with
  | Some v => Some v
  | None => dict_lookup d k
  end.
Proof.
  unfold dict_update. revert d.
  induction e as [|[k0 v0] e IH]; intros d Hwf; simpl.
  - reflexivity.
  - apply wf_cons in Hwf as [Hk0 Hwf].
    rewrite (IH _ Hwf), lookup_set.
    destruct (k0 =? k) eqn:E.
    + apply String.eqb_eq in E; subst k0. now rewrite Hk0.
    + reflexivity.
Qed.

Lemma lookup_filter_None (f : string * pyval -> bool) d k :
  dict_lookup d k = None -> dict_lookup (filter f d) k = None.
Proof.
  induction d as [|[k0 v0] d IH]; simpl; [reflexivity|].
  destruct (k0 =? k) eqn:E; [discriminate|].
  intros H. destruct (f (k0, v0)); simpl; [rewrite E|]; auto.
Qed.

Lemma wf_filter (f : string * pyval -> bool) d :
  dict_wf d = true -> dict_wf (filter f d) = true.
Proof.
  induction d as [|[k0 v0] d IH]; [reflexivity|].
  intros H. apply wf_cons in H as [Hk Hwf]. simpl.
  destruct (f (k0, v0)); [|auto].
  unfold dict_wf; simpl. apply andb_true_iff. split; [|apply IH, Hwf].
  apply negb_true_iff, lookup_None_mem, lookup_filter_None, Hk.
Qed.

Lemma lookup_drop_None d k :
  dict_wf d = true ->
  dict_lookup (drop_None d) k =
  match dict_lookup d k with
  | Some v => if is_None v then None else Some v
  | None => None
  end.
Proof.
  unfold drop_None.
  induction d as [|[k0 v0] d IH]; intros Hwf; simpl; [reflexivity|].
  apply wf_cons in Hwf as [Hk0 Hwf].
  destruct (k0 =? k) eqn:E.
  - apply String.eqb_eq in E; subst k0.
    destruct (is_None v0); simpl.
    + now apply lookup_filter_None.
    + now rewrite String.eqb_refl.
  - destruct (is_None v0); simpl; [|rewrite E]; auto.
Qed.

Lemma lookup_drop_None_not_None d k v :
  dict_lookup (drop_None d) k = Some v -> is_None v = false.
Proof.
  unfold drop_None.
  induction d as [|[k0 v0] d IH]; simpl; [discriminate|].
  destruct (is_None v0) eqn:E0; simpl; [exact IH|].
  destruct (k0 =? k); [|exact IH].
  intros H; injection H as <-; exact E0.
Qed.


Lemma get_lookup d k :
  dict_get d k = match dict_lookup d k with Some v => v | None => VNone end.
Proof. reflexivity. Qed.

End DictFacts.

(** ** Scope normalization inside a dictionary *)

Lemma lookup_normalize_scope (d : dict) (k : string) :
  dict_lookup (normalize_scope d) k =
  option_map (normalize_at k) (dict_lookup d k).
Proof.
  unfold normalize_scope, normalize_at, dict_get.
  destruct (k =? "scope") eqn:E; simpl.
  - apply String.eqb_eq in E; subst k.
    destruct (dict_lookup d "scope") as [v|] eqn:L; simpl.
    + destruct (truthy v) eqn:T.
      * now rewrite lookup_set.
      * now rewrite L.
    + now rewrite L.
  - destruct (truthy _).
    + rewrite lookup_set, String.eqb_sym, E.
      now destruct (dict_lookup d k).
    + now destruct (dict_lookup d k).
Qed.

(** ** The token request *)

Section TokenRequest.

Variable post : Request -> Outcome Response.
Variables (self : Client) (grant_type : pyval) (query : option dict).
Variable kwargs : dict.

(** A call posts nothing or one request, made of the configured endpoint,
    the [Accept] header, [query], the merged body and the credentials. *)
Lemma get_token_sent (req : Request) :
  In req (fst (_get_token post self grant_type query kwargs)) ->
  exists endpoint,
    token_endpoint self = Some endpoint /\ endpoint <> "" /\
    req = mkRequest endpoint [("Accept", "application/json")] query
            (token_body self grant_type kwargs) (basic_auth self).
Proof.
  unfold _get_token, configured.
  destruct (token_endpoint self) as [e|]; simpl; [|tauto].
  destruct (e =? "") eqn:E; simpl; [tauto|].
  intros [<-|[]]. exists e. repeat split.
  intros ->. discriminate.
Qed.

Lemma lookup_token_body (k : string) :
  dict_wf (default_body self) = true ->
  dict_wf kwargs = true ->
  dict_lookup (token_body self grant_type kwargs) k =
  option_map (normalize_at k) (merge_spec self grant_type kwargs k).
Proof.
  intros Hd Hk. unfold token_body, merge_spec.
  rewrite lookup_normalize_scope. f_equal.
  rewrite lookup_update by now apply wf_filter.
  rewrite lookup_drop_None by assumption.
  rewrite lookup_update by assumption.
  destruct (dict_lookup kwargs k) as [v|]; [destruct (is_None v)|]; reflexivity.
Qed.

(** C1.  The body of every request that [_get_token] posts is the merge of
    [{client_id, grant_type}], then [default_body], then the parameters of
    the caller: under every key, the value of the caller when it is not
    [None], and otherwise the value that [default_body] (or else the first
    dictionary) has, which a [None] of the caller leaves as it is.  The
    value under [scope] is the merged value normalized. *)
Theorem get_token_body_is_merge (req : Request) (k : string) :
  dict_wf (default_body self) = true ->
  dict_wf kwargs = true ->
  In req (fst (_get_token post self grant_type query kwargs)) ->
  dict_lookup (data req) k =
  option_map (normalize_at k) (merge_spec self grant_type kwargs k).
Proof.
  intros Hd Hk Hin.
  destruct (get_token_sent req Hin) as (e & _ & _ & ->). simpl.
  now apply lookup_token_body.
Qed.

End TokenRequest.

Example get_token_posts_token_request :
  fst (_get_token (answer (mkResponse 200 (Some JNull))) confidential_client
         (VStr "authorization_code") None token_keywords)
  = [token_request].
Proof. reflexivity. Qed.

Lemma get_token_body_is_merge_witness :
  dict_lookup (data token_request) "scope" = Some (VStr "default") /\
  dict_lookup (data token_request) "resource" = Some (VStr "mail") /\
  dict_lookup (data token_request) "code" = Some (VStr "xyz").
Proof.
  pose proof (fun k =>
    get_token_body_is_merge (answer (mkResponse 200 (Some JNull)))
      confidential_client (VStr "authorization_code") None token_keywords
      token_request k eq_refl eq_refl (or_introl eq_refl)) as H.
  split; [exact (H "scope") | split; [exact (H "resource") | exact (H "code")]].
Defined.

(** ** Authentication of the token request *)

Section TokenAuthentication.

Variable post : Request -> Outcome Response.
Variables (self : Client) (grant_type : pyval) (query : option dict).
Variable kwargs : dict.

(** C2.  A request that [_get_token] posts carries the pair
    [(client_id, client_secret)] for HTTP Basic Auth exactly when both are
    true values, and carries no credentials otherwise, in particular when
    [client_secret] is [None] or the empty string.  What the body has under
    [client_secret] is what the caller supplied, in the call or in
    [default_body]: the client adds none. *)
Theorem get_token_basic_auth (req : Request) :
  dict_wf (default_body self) = true ->
  dict_wf kwargs = true ->
  In req (fst (_get_token post self grant_type query kwargs)) ->
  (auth req = Some (client_id self, client_secret self) <->
   truthy (client_id self) = true /\ truthy (client_secret self) = true) /\
  (auth req = None <->
   truthy (client_id self) = false \/ truthy (client_secret self) = false) /\
  (client_secret self = VNone \/ client_secret self = VStr "" ->
   auth req = None) /\
  dict_lookup (data req) "client_secret" =
    caller_value self kwargs "client_secret".
Proof.
  intros Hd Hk Hin.
  destruct (get_token_sent post self grant_type query kwargs req Hin)
    as (e & _ & _ & ->). simpl.
  unfold basic_auth.
  split; [|split; [|split]].
  - destruct (truthy (client_secret self)), (truthy (client_id self));
      simpl; split; try discriminate; try tauto;
      intros [? ?]; discriminate.
  - destruct (truthy (client_secret self)), (truthy (client_id self));
      simpl; split; try discriminate; auto; intros [?|?]; discriminate.
  - intros [-> | ->]; simpl; reflexivity.
  - rewrite lookup_token_body by assumption.
    unfold merge_spec, caller_value, normalize_at. simpl.
    destruct (dict_lookup kwargs "client_secret") as [v|];
      [destruct (is_None v)|];
      try destruct (dict_lookup (default_body self) "client_secret");
      reflexivity.
Qed.

End TokenAuthentication.

Lemma get_token_basic_auth_witness :
  auth token_request = Some (VStr "cid", VStr "s3cr3t") /\
  dict_lookup (data token_request) "client_secret" = None.
Proof.
  pose proof (get_token_basic_auth (answer (mkResponse 200 (Some JNull)))
      confidential_client (VStr "authorization_code") None token_keywords
      token_request eq_refl eq_refl (or_introl eq_refl)) as (H1 & _ & _ & H2).
  split; [apply H1; split; reflexivity | exact H2].
Defined.

(** With an empty secret no credentials are attached. *)
Example get_token_empty_secret :
  map auth
    (fst (_get_token (answer (mkResponse 200 (Some JNull)))
            (Client_init (VStr "cid") (VStr "") None None
               (Some "https://login.example.com/token"))
            (VStr "client_credentials") None
            [("client_secret", VStr "in the body")]))
  = [None].
Proof. reflexivity. Qed.

(** ** The answer of the token endpoint *)

Section TokenResponse.

Variable post : Request -> Outcome Response.
Variables (self : Client) (grant_type : pyval) (query : option dict).
Variable kwargs : dict.

Let call := _get_token post self grant_type query kwargs.

Lemma get_token_outcome (req : Request) :
  In req (fst call) ->
  snd call =
  (resp <- post req ;;
   _ <- (if (500 <=? status_code resp)%Z
         then Requests.raise_for_status resp else Return tt) ;;
   Requests.json resp).
Proof.
  unfold call, _get_token, configured.
  destruct (token_endpoint self) as [e|]; simpl; [|tauto].
  destruct (e =? ""); simpl; [tauto|].
  intros [<-|[]]. reflexivity.
Qed.

(** X2.  An exception that [requests.post] raises goes to the caller as it
    is: the call raises it, after the one request. *)
Lemma get_token_transport_failure (req : Request) (e : exn) :
  In req (fst call) -> post req = Raise e -> snd call = Raise e.
Proof.
  intros Hin Hp. rewrite (get_token_outcome req Hin), Hp. reflexivity.
Qed.

(** C4, as amended.  When the token endpoint answers with a status from 500
    to 599 the call raises the [HTTPError] of [raise_for_status] and no
    payload is decoded.  When it answers with a status below 500, every 4xx
    included, the client raises nothing of its own: the call is the
    decoding of the payload, so a payload that is JSON is returned decoded
    and unchanged, and for one that is not JSON the error of the decoder
    goes to the caller. *)
Theorem get_token_status (req : Request) (resp : Response) :
  In req (fst call) ->
  post req = Return resp ->
  ((500 <= status_code resp < 600)%Z -> snd call = Raise HTTPError) /\
  ((status_code resp < 500)%Z -> snd call = Requests.json resp) /\
  ((status_code resp < 500)%Z ->
   forall j, payload resp = Some j -> snd call = Return j).
Proof.
  intros Hin Hp. rewrite (get_token_outcome req Hin), Hp. simpl.
  split; [|split].
  - intros [H1 H2]. unfold Requests.raise_for_status.
    replace (500 <=? status_code resp)%Z with true by (symmetry; lia).
    replace (400 <=? status_code resp)%Z with true by (symmetry; lia).
    replace (status_code resp <? 600)%Z with true by (symmetry; lia).
    reflexivity.
  - intros H.
    replace (500 <=? status_code resp)%Z with false by (symmetry; lia).
    reflexivity.
  - intros H j Hj.
    replace (500 <=? status_code resp)%Z with false by (symmetry; lia).
    unfold Requests.json. simpl. now rewrite Hj.
Qed.

End TokenResponse.

Lemma get_token_status_witness :
  snd (_get_token (answer (mkResponse 503 (Some invalid_scope)))
         confidential_client (VStr "authorization_code") None token_keywords)
  = Raise HTTPError.
Proof.
  apply (proj1 (get_token_status
    (answer (mkResponse 503 (Some invalid_scope))) confidential_client
    (VStr "authorization_code") None token_keywords token_request
    (mkResponse 503 (Some invalid_scope)) (or_introl eq_refl) eq_refl)).
  simpl. lia.
Defined.

(** A 400 whose payload is the error of RFC 6749 is returned as data. *)
Example get_token_400_invalid_scope :
  snd (_get_token (answer (mkResponse 400 (Some invalid_scope)))
         public_client (VStr "client_credentials") None
         [("scope", VStr "read write")])
  = Return invalid_scope.
Proof. reflexivity. Qed.

(** A 503 is an [HTTPError], whatever its payload. *)
Example get_token_503 :
  snd (_get_token (answer (mkResponse 503 (Some invalid_scope)))
         public_client (VStr "client_credentials") None
         [("scope", VStr "read write")])
  = Raise HTTPError.
Proof. reflexivity. Qed.

(** C4, as stated, fails: a 404 whose payload is not JSON (the page of a
    proxy, say) has a status below 500, and the call raises the
    [ValueError] of the decoder. *)
Lemma get_token_404_without_json :
  (status_code (mkResponse 404 None) <? 500)%Z = true /\
  snd (_get_token (answer (mkResponse 404 None))
         public_client (VStr "client_credentials") None [])
  = Raise ValueError.
Proof. split; reflexivity. Qed.

(** A status of 600 or more is not one that [raise_for_status] raises for:
    the payload is decoded and returned. *)
Lemma get_token_600 :
  snd (_get_token (answer (mkResponse 600 (Some invalid_scope)))
         public_client (VStr "client_credentials") None [])
  = Return invalid_scope.
Proof. reflexivity. Qed.

(** ** Endpoints that are not configured *)

(** C8.  With no [authorization_endpoint] every call of
    [_authorization_url] raises (the [TypeError] of the test
    ['?' in None]) and so returns no URL; with no [token_endpoint] (or an
    empty one) every call of [_get_token] raises the [AssertionError] of
    its [assert], and has posted no request. *)
Theorem unconfigured_endpoint_fails (self : Client) :
  (authorization_endpoint self = None ->
   (forall response_type kwargs,
      _authorization_url self response_type kwargs = Raise TypeError) /\
   (forall args kw, call_authorization_url self args kw = Raise TypeError)) /\
  (configured (token_endpoint self) = false ->
   forall post grant_type query kwargs,
     _get_token post self grant_type query kwargs = ([], Raise AssertionError)).
Proof.
  split.
  - intros H.
    assert (forall response_type kwargs,
      _authorization_url self response_type kwargs = Raise TypeError) as Hu.
    { intros. unfold _authorization_url. now rewrite H. }
    split; [exact Hu|].
    intros args kw. unfold call_authorization_url.
    destruct (dict_has kw "self"); [reflexivity|].
    destruct args as [|rt [|? ?]]; [| |reflexivity].
    + destruct (dict_lookup kw "response_type"); [apply Hu | reflexivity].
    + destruct (dict_has kw "response_type"); [reflexivity | apply Hu].
  - intros H post grant_type query kwargs. unfold _get_token.
    destruct (token_endpoint self) as [e|]; [|reflexivity].
    now rewrite H.
Qed.

Lemma unconfigured_endpoint_fails_witness :
  _authorization_url bare_client (VStr "code") [("state", VStr "xyz")]
    = Raise TypeError /\
  _get_token (answer (mkResponse 200 (Some JNull))) bare_client
    (VStr "client_credentials") None [] = ([], Raise AssertionError).
Proof.
  split.
  - apply (proj1 (unconfigured_endpoint_fails bare_client)). reflexivity.
  - apply (proj2 (unconfigured_endpoint_fails bare_client)). reflexivity.
Defined.

(** ** Equality of values *)

Lemma list_eqb_eq (l m : list string) : list_eqb l m = true <-> l = m.
Proof.
  revert m. induction l as [|x l IH]; intros [|y m]; simpl;
    try (split; [discriminate | congruence]); [tauto|].
  rewrite andb_true_iff, String.eqb_eq, IH.
  split; [intros [-> ->]; reflexivity | intros [= -> ->]; auto].
Qed.

Lemma subset_refl (l : list string) : subset l l = true.
Proof.
  unfold subset. apply forallb_forall. intros x Hx.
  unfold mem. apply existsb_exists. exists x. split; [exact Hx|].
  apply String.eqb_refl.
Qed.

Lemma py_eq_refl (v : pyval) : py_eq v v = true.
Proof.
  destruct v; simpl; try apply String.eqb_refl; try now apply list_eqb_eq.
  - reflexivity.
  - now rewrite subset_refl.
Qed.

(** Apart from sets, which are equal whatever the order of their elements,
    [==] holds of identical values only. *)
Lemma py_eq_eq (v w : pyval) :
  elements v = None \/ (exists l, v = VList l) \/ (exists l, v = VTuple l) ->
  py_eq v w = true -> v = w.
Proof.
  intros Hv.
  destruct v, w; simpl; try discriminate; try reflexivity;
    try (intros H; apply String.eqb_eq in H; congruence);
    try (intros H; apply list_eqb_eq in H; congruence).
  destruct Hv as [H|[[? H]|[? H]]]; discriminate.
Qed.

(** ** [validate_authorization] *)

(** C6.  On a dictionary, [validate_authorization] returns that dictionary
    when the value under [state] equals the expected state, and only then;
    it raises [ValueError('state mismatch')] when the two differ, and only
    then.  A dictionary with no [state] passes when no state is expected. *)
Theorem validate_authorization_dict (d : dict) (state : pyval) :
  (dict_get d "state" = state ->
   validate_authorization (PDict d) state = Return d) /\
  (py_eq (dict_get d "state") state = true <->
   validate_authorization (PDict d) state = Return d) /\
  (py_eq (dict_get d "state") state = false <->
   validate_authorization (PDict d) state = Raise ValueError) /\
  (forall d', validate_authorization (PDict d) state = Return d' -> d' = d) /\
  (dict_lookup d "state" = None ->
   validate_authorization (PDict d) VNone = Return d).
Proof.
  unfold validate_authorization.
  split; [|split; [|split; [|split]]].
  - intros <-. now rewrite py_eq_refl.
  - destruct (py_eq (dict_get d "state") state); simpl;
      split; congruence.
  - destruct (py_eq (dict_get d "state") state); simpl;
      split; congruence.
  - intros d'. destruct (py_eq (dict_get d "state") state); simpl; congruence.
  - intros H. unfold dict_get. now rewrite H.
Qed.

Example validate_authorization_no_state :
  validate_authorization (PDict [("code", VStr "abc")]) VNone
  = Return [("code", VStr "abc")].
Proof. reflexivity. Qed.

Example validate_authorization_wrong_state :
  validate_authorization (PDict [("state", VStr "xyz")]) (VStr "wrong")
  = Raise ValueError.
Proof. reflexivity. Qed.

(** [parse_qs] gives every name a list. *)
Lemma lookup_parse_qs (qs k : string) :
  dict_lookup (Urllib.parse_qs qs) k = None \/
  exists l, dict_lookup (Urllib.parse_qs qs) k = Some (VList l).
Proof.
  unfold Urllib.parse_qs.
  generalize (fold_left
    (fun r nv => Urllib.add_value r (fst nv) (snd nv))
    (Urllib.parse_qsl qs) []).
  intros r. induction r as [|[n vs] r IH]; simpl; [now left|].
  destruct (n =? k); [right; now exists vs | exact IH].
Qed.

(** C5 fails on the code.  The state that [validate_authorization] reads
    from a parsed string is the list of the values of [state], and a list
    is not equal to a string: the call of the claim raises, and so does
    every call with a string to parse and a string as the expected state. *)
Theorem validate_authorization_string :
  validate_authorization (PStr "state=xyz&code=abc") (VStr "xyz")
    = Raise ValueError /\
  forall qs s, validate_authorization (PStr qs) (VStr s) = Raise ValueError.
Proof.
  split; [reflexivity|].
  intros qs s. unfold validate_authorization, dict_get.
  destruct (lookup_parse_qs qs "state") as [-> | [l ->]]; reflexivity.
Qed.

(** What does pass is the list of the values as the expected state. *)
Example validate_authorization_string_list :
  validate_authorization (PStr "state=xyz&code=abc") (VList ["xyz"])
  = Return [("state", VList ["xyz"]); ("code", VList ["abc"])].
Proof. reflexivity. Qed.

Example validate_authorization_string_no_state :
  validate_authorization (PStr "code=abc") VNone
  = Return [("code", VList ["abc"])].
Proof. reflexivity. Qed.

(** ** The authorization URL of the grants *)

(** C7 fails on the code.  [locals()] holds [self], and the bound method
    [_authorization_url] has its [self] already: every call of
    [ImplicitGrant.authorization_url] raises a [TypeError] and none returns
    a URL. *)
Theorem ImplicitGrant_authorization_url_raises
    (self : Client) (redirect_uri scope state : pyval) :
  ImplicitGrant_authorization_url self redirect_uri scope state
  = Raise TypeError.
Proof. reflexivity. Qed.

(** The same call in [AuthorizationCodeGrant] names its keywords and goes
    through. *)
Lemma AuthorizationCodeGrant_authorization_url_calls
    (self : Client) (redirect_uri scope state : pyval) :
  AuthorizationCodeGrant_authorization_url self redirect_uri scope state []
  = _authorization_url self (VStr "code")
      [("redirect_uri", redirect_uri); ("scope", scope); ("state", state)].
Proof. reflexivity. Qed.

Example AuthorizationCodeGrant_authorization_url_example :
  AuthorizationCodeGrant_authorization_url public_client
    (VStr "http://localhost/cb") (VList ["a"; "b"]) VNone []
  = Return "https://login.example.com/authorize?client_id=cid&response_type=code&redirect_uri=http%3A%2F%2Flocalhost%2Fcb&scope=a+b".
Proof. reflexivity. Qed.

(** ** Dictionaries stay well formed *)

Lemma wf_cons_iff (k : string) (v : pyval) (d : dict) :
  dict_wf ((k, v) :: d) = true <->
  dict_lookup d k = None /\ dict_wf d = true.
Proof.
  split; [apply wf_cons|].
  intros [H1 H2]. unfold dict_wf; simpl.
  apply andb_true_iff. split; [|exact H2].
  apply negb_true_iff. now apply lookup_None_mem.
Qed.

Lemma wf_set (d : dict) (k : string) (v : pyval) :
  dict_wf d = true -> dict_wf (dict_set d k v) = true.
Proof.
  induction d as [|[k0 v0] d IH]; [reflexivity|].
  intros H. apply wf_cons in H as [Hk Hwf]. simpl.
  destruct (k0 =? k) eqn:E; apply wf_cons_iff.
  - now split.
  - split; [|now apply IH].
    rewrite lookup_set, String.eqb_sym, E. exact Hk.
Qed.

Lemma wf_update (d e : dict) :
  dict_wf d = true -> dict_wf (dict_update d e) = true.
Proof.
  unfold dict_update. revert d.
  induction e as [|[k v] e IH]; intros d H; simpl; [exact H|].
  apply IH. now apply wf_set.
Qed.

(** ** The parameters of the authorization URL *)

Section AuthorizationParams.

Variables (self : Client) (response_type : pyval) (kwargs : dict).
Hypothesis kwargs_wf : dict_wf kwargs = true.

Lemma lookup_authorization_params (k : string) :
  dict_lookup (authorization_params self response_type kwargs) k =
  match updated self response_type kwargs k with
  | Some v => if is_None v then None else Some (normalize_at k v)
  | None => None
  end.
Proof.
  unfold authorization_params, updated.
  rewrite lookup_normalize_scope.
  rewrite lookup_drop_None by (apply wf_update; reflexivity).
  rewrite lookup_update by assumption.
  destruct (dict_lookup kwargs k) as [v|].
  - now destruct (is_None v).
  - match goal with |- context [dict_lookup ?b k] =>
      destruct (dict_lookup b k) as [v|] end; [|reflexivity].
    now destruct (is_None v).
Qed.

(** What is returned is the endpoint, the separator and these parameters
    serialized. *)
Lemma authorization_url_serializes (endpoint : string) :
  authorization_endpoint self = Some endpoint ->
  _authorization_url self response_type kwargs =
  Return (endpoint ++ (if contains_char "?" endpoint then "&" else "?")
          ++ Urllib.urlencode (authorization_params self response_type kwargs)).
Proof. unfold _authorization_url. now intros ->. Qed.

End AuthorizationParams.

(** ** Scope normalization *)

Lemma normalize_at_scope_elements (v : pyval) (l : list string) :
  elements v = Some l -> l <> [] ->
  is_None v = false /\ normalize_at "scope" v = VStr (join " " l).
Proof.
  unfold normalize_at.
  destruct v; simpl; try discriminate; intros [= ->] Hl;
    (destruct l; [congruence | split; reflexivity]).
Qed.

Lemma normalize_at_str (k s : string) : normalize_at k (VStr s) = VStr s.
Proof. unfold normalize_at. now destruct (_ && _). Qed.

(** X15.  In the parameters of the authorization URL and in the body of
    the token request alike, a scope that the caller gives as a collection
    of strings that is not empty is replaced by its elements joined with
    one space, in the order given; a scope given as a string, the empty
    string included, is kept as it is; a scope that is absent or [None]
    leaves no [scope] at all (in the body, unless [default_body] has one).
    These parameters are what the URL serializes, and this body is the
    body of the request that is posted. *)
Theorem scope_normalization
    (post : Request -> Outcome Response) (self : Client)
    (response_type grant_type : pyval) (query : option dict) (kwargs : dict) :
  dict_wf kwargs = true ->
  dict_wf (default_body self) = true ->
  let params := authorization_params self response_type kwargs in
  let body := token_body self grant_type kwargs in
  (forall v l, dict_lookup kwargs "scope" = Some v ->
     elements v = Some l -> l <> [] ->
     dict_lookup params "scope" = Some (VStr (join " " l)) /\
     dict_lookup body "scope" = Some (VStr (join " " l))) /\
  (forall s, dict_lookup kwargs "scope" = Some (VStr s) ->
     dict_lookup params "scope" = Some (VStr s) /\
     dict_lookup body "scope" = Some (VStr s)) /\
  (dict_lookup kwargs "scope" = None \/
   dict_lookup kwargs "scope" = Some VNone ->
     dict_lookup params "scope" = None /\
     (dict_lookup (default_body self) "scope" = None ->
      dict_lookup body "scope" = None)) /\
  (forall endpoint, authorization_endpoint self = Some endpoint ->
     exists sep, _authorization_url self response_type kwargs =
                 Return (endpoint ++ sep ++ Urllib.urlencode params)) /\
  (forall req,
     In req (fst (_get_token post self grant_type query kwargs)) ->
     data req = body).
Proof.
  intros Hk Hd params body.
  assert (forall k, dict_lookup params k = _) as Hp
    by (intros k; apply (lookup_authorization_params self response_type kwargs Hk k)).
  assert (forall k, dict_lookup body k = _) as Hb
    by (intros k; apply (lookup_token_body self grant_type kwargs k Hd Hk)).
  split; [|split; [|split; [|split]]].
  - intros v l Hv He Hl.
    destruct (normalize_at_scope_elements v l He Hl) as [Hn Hs].
    rewrite Hp, Hb. unfold updated, merge_spec. rewrite Hv, Hn. simpl.
    now rewrite Hs.
  - intros s Hs. rewrite Hp, Hb. unfold updated, merge_spec. rewrite Hs.
    simpl. now rewrite normalize_at_str.
  - intros H. rewrite Hp, Hb. unfold updated, merge_spec.
    split.
    + destruct H as [-> | ->]; reflexivity.
    + intros Hdef. destruct H as [-> | ->]; simpl; now rewrite Hdef.
  - intros endpoint He. eexists.
    now apply authorization_url_serializes.
  - intros req Hin.
    destruct (get_token_sent post self grant_type query kwargs req Hin)
      as (e & _ & _ & ->).
    reflexivity.
Qed.

Lemma scope_normalization_witness :
  dict_lookup
    (authorization_params public_client (VStr "code")
       [("scope", VList ["a"; "b"])]) "scope" = Some (VStr "a b") /\
  dict_lookup
    (token_body public_client (VStr "password")
       [("scope", VList ["a"; "b"])]) "scope" = Some (VStr "a b").
Proof.
  apply (proj1 (scope_normalization (answer (mkResponse 200 None))
                  public_client (VStr "code") (VStr "password") None
                  [("scope", VList ["a"; "b"])] eq_refl eq_refl)
           (VList ["a"; "b"]) ["a"; "b"] eq_refl eq_refl).
  discriminate.
Defined.

(** C3 fails on the code.  The test [if params.get('scope')] of lines 36
    and 52 is false of an empty collection as it is of no scope, so a scope
    given as the empty list is neither joined nor left out: it stays a
    list in the parameters and in the body, and the URL carries it printed,
    [scope=%5B%5D]. *)
Lemma empty_scope_collection_is_kept :
  dict_lookup
    (authorization_params public_client (VStr "code") [("scope", VList [])])
    "scope" = Some (VList []) /\
  _authorization_url public_client (VStr "code") [("scope", VList [])]
  = Return "https://login.example.com/authorize?client_id=cid&response_type=code&scope=%5B%5D" /\
  dict_lookup
    (token_body public_client (VStr "password") [("scope", VList [])])
    "scope" = Some (VList []).
Proof. repeat split. Qed.

(** The same holds of every empty list, set or tuple, for every client. *)
Lemma empty_scope_collection_not_normalized (self : Client)
    (response_type grant_type : pyval) (kwargs : dict) (v : pyval) :
  dict_wf kwargs = true ->
  dict_wf (default_body self) = true ->
  dict_lookup kwargs "scope" = Some v ->
  elements v = Some [] ->
  dict_lookup (authorization_params self response_type kwargs) "scope"
    = Some v /\
  dict_lookup (token_body self grant_type kwargs) "scope" = Some v.
Proof.
  intros Hk Hd Hv He.
  assert (is_None v = false /\ normalize_at "scope" v = v) as [Hn Hs]
    by (destruct v; simpl in He; try discriminate;
        injection He as ->; split; reflexivity).
  rewrite lookup_authorization_params, lookup_token_body by assumption.
  unfold updated, merge_spec. rewrite Hv, Hn. simpl. now rewrite Hs.
Qed.

Example scope_string_in_url :
  _authorization_url public_client (VStr "code") [("scope", VStr "a b")]
  = Return "https://login.example.com/authorize?client_id=cid&response_type=code&scope=a+b".
Proof. reflexivity. Qed.

Example scope_empty_string_in_url :
  _authorization_url public_client (VStr "code") [("scope", VStr "")]
  = Return "https://login.example.com/authorize?client_id=cid&response_type=code&scope=".
Proof. reflexivity. Qed.

Example scope_None_in_url :
  _authorization_url public_client (VStr "code") [("scope", VNone)]
  = Return "https://login.example.com/authorize?client_id=cid&response_type=code".
Proof. reflexivity. Qed.

(** ** The required keys are not protected *)



Example authorization_url_without_client_id :
  call_authorization_url public_client [VStr "code"]
    [("client_id", VNone); ("state", VStr "xyz")]
  = Return "https://login.example.com/authorize?response_type=code&state=xyz".
Proof. reflexivity. Qed.

Example authorization_url_without_response_type :
  call_authorization_url public_client []
    [("response_type", VNone); ("state", VStr "xyz")]
  = Return "https://login.example.com/authorize?client_id=cid&state=xyz".
Proof. reflexivity. Qed.

(** A keyword [response_type] next to the positional argument is a second
    value for the parameter. *)
Example authorization_url_two_response_types :
  call_authorization_url public_client [VStr "code"]
    [("response_type", VNone)]
  = Raise TypeError.
Proof. reflexivity. Qed.

(** ** Occurrences of a word in a serialized query *)

Section Occurrences.

Import Urllib.

Lemma append_assoc (a b c : string) : (a ++ b) ++ c = a ++ b ++ c.
Proof. induction a as [|x a IH]; simpl; [reflexivity | now rewrite IH]. Qed.

Lemma plain_safe (c : ascii) : plain c = true -> always_safe c = true.
Proof.
  unfold plain. intros H.
  apply andb_true_iff in H as [H _]. now apply andb_true_iff in H as [H _].
Qed.

(** The digits of an escape are not plain. *)
Lemma hex2_not_plain (c : ascii) :
  exists x y, hex2 "A" c = String x (String y "") /\
              plain x = false /\ plain y = false.
Proof.
  unfold hex2. do 2 eexists. split; [reflexivity|].
  destruct c as [[] [] [] [] [] [] [] []]; vm_compute; split; reflexivity.
Qed.

Lemma prefix_nil (s : string) : prefix "" s = true.
Proof. now destruct s. Qed.

Lemma prefix_head (a c : ascii) (p r : string) :
  a <> c -> prefix (String a p) (String c r) = false.
Proof. intros H. simpl. now destruct (ascii_dec a c). Qed.

Lemma prefix_plain_unsafe (a c : ascii) (p r : string) :
  plain a = true -> plain c = false ->
  prefix (String a p) (String c r) = false.
Proof. intros Ha Hc. apply prefix_head. congruence. Qed.

(** What [quote_plus] writes for a character it does not keep starts with
    [+] or [%] and has no plain character. *)
Lemma quote_byte_unsafe (c : ascii) :
  always_safe c = false ->
  quote_byte c = "+" \/
  exists x y, quote_byte c = String "%" (String x (String y "")) /\
              plain x = false /\ plain y = false.
Proof.
  intros H. unfold quote_byte. rewrite H.
  destruct (Ascii.eqb c " "); [now left | right].
  destruct (hex2_not_plain c) as (x & y & -> & Hx & Hy).
  now exists x, y.
Qed.

Lemma prefix_quote_plus (p s t : string) :
  all_plain p = true -> delimited t = true ->
  prefix p (quote_plus s ++ t) = prefix p s.
Proof.
  intros Hp Ht. revert p Hp.
  induction s as [|c s IH]; intros [|a p] Hp; simpl in *.
  - now rewrite prefix_nil.
  - apply andb_true_iff in Hp as [Ha _]. apply plain_safe in Ha.
    destruct t as [|c t]; [reflexivity|]. simpl in Ht.
    apply prefix_head. intros ->. rewrite Ha in Ht. discriminate.
  - now rewrite prefix_nil.
  - apply andb_true_iff in Hp as [Ha Hp].
    destruct (always_safe c) eqn:Hc.
    + unfold quote_byte. rewrite Hc. simpl.
      destruct (ascii_dec a c); [now apply IH | reflexivity].
    + assert (a <> c) as Hac
        by (intros ->; apply plain_safe in Ha; congruence).
      destruct (ascii_dec a c); [contradiction|].
      rewrite append_assoc.
      destruct (quote_byte_unsafe c Hc) as [-> | (x & y & -> & _ & _)];
        simpl; (destruct (ascii_dec a _) as [->|]; [discriminate | reflexivity]).
Qed.

Lemma contains_cons (p : string) (c : ascii) (s : string) :
  contains p (String c s) = prefix p (String c s) || contains p s.
Proof. reflexivity. Qed.

(** A word of plain characters occurs in [quote_plus s] followed by a
    delimiter where it occurs in [s], and after. *)
Lemma contains_quote_plus (a : ascii) (p s t : string) :
  all_plain (String a p) = true -> delimited t = true ->
  contains (String a p) (quote_plus s ++ t) =
  contains (String a p) s || contains (String a p) t.
Proof.
  intros Hp Ht.
  assert (plain a = true) as Ha by now apply andb_true_iff in Hp as [? _].
  induction s as [|c s IH].
  - reflexivity.
  - rewrite contains_cons.
    change (quote_plus (String c s)) with (quote_byte c ++ quote_plus s).
    rewrite append_assoc.
    destruct (always_safe c) eqn:Hc.
    + unfold quote_byte. rewrite Hc.
      change (String c "" ++ quote_plus s ++ t)
        with (String c (quote_plus s ++ t)).
      assert (prefix (String a p) (String c (quote_plus s ++ t)) =
              prefix (String a p) (String c s)) as Hpre.
      { rewrite <- (prefix_quote_plus (String a p) (String c s) t Hp Ht).
        change (quote_plus (String c s)) with (quote_byte c ++ quote_plus s).
        unfold quote_byte. rewrite Hc. reflexivity. }
      rewrite contains_cons, IH, Hpre. now rewrite orb_assoc.
    + assert (prefix (String a p) (String c s) = false) as ->.
      { apply prefix_head. intros ->. apply plain_safe in Ha. congruence. }
      destruct (quote_byte_unsafe c Hc) as [-> | (x & y & -> & Hx & Hy)].
      * change ("+" ++ quote_plus s ++ t)
          with (String "+" (quote_plus s ++ t)).
        rewrite contains_cons, IH, prefix_plain_unsafe; auto.
      * change (String "%" (String x (String y "")) ++ quote_plus s ++ t)
          with (String "%" (String x (String y (quote_plus s ++ t)))).
        rewrite !contains_cons, IH.
        rewrite !prefix_plain_unsafe; auto.
Qed.

Lemma contains_delimiter (a c : ascii) (p r : string) :
  plain a = true -> always_safe c = false ->
  contains (String a p) (String c r) = contains (String a p) r.
Proof.
  intros Ha Hc. rewrite contains_cons, prefix_head; [reflexivity|].
  intros ->. apply plain_safe in Ha. congruence.
Qed.

End Occurrences.

Section SerializedQuery.

Import Urllib.

Variables (a : ascii) (p : string).
Hypothesis word_plain : all_plain (String a p) = true.

Let word := String a p.

Lemma word_head_plain : plain a = true.
Proof. now apply andb_true_iff in word_plain as [? _]. Qed.

Lemma contains_encode_item (kv : string * pyval) (t : string) :
  delimited t = true ->
  contains word (encode_item kv ++ t) =
  contains word (fst kv) || contains word (py_str (snd kv))
  || contains word t.
Proof.
  intros Ht. unfold encode_item, word.
  rewrite !append_assoc.
  rewrite contains_quote_plus by (auto; reflexivity).
  change ("=" ++ quote_plus (py_str (snd kv)) ++ t)
    with (String "=" (quote_plus (py_str (snd kv)) ++ t)).
  rewrite contains_delimiter by (auto using word_head_plain).
  rewrite contains_quote_plus by auto.
  now rewrite orb_assoc.
Qed.

Lemma append_nil_r (s : string) : s ++ "" = s.
Proof. induction s as [|c s IH]; simpl; [reflexivity | now rewrite IH]. Qed.

(** A word of plain characters that is in no key and in no printed value
    is not in the serialized query. *)
Lemma contains_urlencode (d : dict) :
  (forall kv, In kv d ->
     contains word (fst kv) = false /\
     contains word (py_str (snd kv)) = false) ->
  contains word (urlencode d) = false.
Proof.
  unfold urlencode.
  induction d as [|kv d IH]; intros H; [reflexivity|].
  destruct (H kv (or_introl eq_refl)) as [Hk Hv].
  assert (contains word (join "&" (map encode_item d)) = false) as Hd
    by (apply IH; intros kv' Hin; apply H; now right).
  destruct d as [|kv' d].
  - simpl. rewrite <- (append_nil_r (encode_item kv)).
    rewrite contains_encode_item by reflexivity.
    now rewrite Hk, Hv.
  - change (join "&" (map encode_item (kv :: kv' :: d)))
      with (encode_item kv ++
            String "&" (join "&" (map encode_item (kv' :: d)))).
    rewrite contains_encode_item by reflexivity.
    unfold word. rewrite contains_delimiter by (auto using word_head_plain).
    fold word. now rewrite Hk, Hv, Hd.
Qed.

End SerializedQuery.

(** ** The authorization URL *)

Lemma mem_In (x : string) (l : list string) : mem x l = true <-> In x l.
Proof.
  unfold mem. rewrite existsb_exists. split.
  - intros (y & Hy & E). apply String.eqb_eq in E. now subst.
  - intros H. exists x. split; [exact H | apply String.eqb_refl].
Qed.

Lemma lookup_None_keys (d : dict) (k : string) :
  dict_lookup d k = None <-> ~ In k (keys d).
Proof.
  rewrite lookup_None_mem, <- mem_In.
  destruct (mem k (keys d)); split; congruence.
Qed.

Lemma lookup_In (d : dict) (k : string) (v : pyval) :
  dict_lookup d k = Some v -> In (k, v) d.
Proof.
  induction d as [|[k0 v0] d IH]; simpl; [discriminate|].
  destruct (k0 =? k) eqn:E.
  - apply String.eqb_eq in E. intros [= ->]. left. now subst.
  - intros H. right. now apply IH.
Qed.

Lemma In_lookup (d : dict) (k : string) (v : pyval) :
  dict_wf d = true -> In (k, v) d -> dict_lookup d k = Some v.
Proof.
  induction d as [|[k0 v0] d IH]; simpl; [tauto|].
  intros Hwf. apply wf_cons in Hwf as [Hk0 Hwf].
  intros [[= -> ->] | Hin].
  - now rewrite String.eqb_refl.
  - destruct (k0 =? k) eqn:E; [|now apply IH].
    apply String.eqb_eq in E; subst k0.
    apply lookup_None_keys in Hk0. exfalso. apply Hk0.
    apply (in_map fst) in Hin. exact Hin.
Qed.

Lemma wf_normalize_scope (d : dict) :
  dict_wf d = true -> dict_wf (normalize_scope d) = true.
Proof.
  intros H. unfold normalize_scope.
  destruct (truthy _); [now apply wf_set | exact H].
Qed.

Lemma wf_authorization_params (self : Client) (response_type : pyval)
    (kwargs : dict) :
  dict_wf (authorization_params self response_type kwargs) = true.
Proof.
  unfold authorization_params.
  apply wf_normalize_scope, wf_filter, wf_update. reflexivity.
Qed.

Lemma normalize_at_not_None (k : string) (v : pyval) :
  is_None v = false -> is_None (normalize_at k v) = false.
Proof.
  unfold normalize_at. destruct (_ && _); [|auto].
  now destruct v.
Qed.

(** Every entry that is serialized comes from an entry of the caller, or
    of [{client_id, response_type}], whose value is not [None]. *)
Lemma authorization_params_entry (self : Client) (response_type : pyval)
    (kwargs : dict) (k : string) (v' : pyval) :
  dict_wf kwargs = true ->
  In (k, v') (authorization_params self response_type kwargs) ->
  exists v, updated self response_type kwargs k = Some v /\
            is_None v = false /\ v' = normalize_at k v.
Proof.
  intros Hwf Hin.
  apply In_lookup in Hin; [|apply wf_authorization_params].
  rewrite lookup_authorization_params in Hin by assumption.
  destruct (updated self response_type kwargs k) as [v|]; [|discriminate].
  destruct (is_None v) eqn:E; [discriminate|].
  injection Hin as <-. now exists v.
Qed.

(** C9.  [_authorization_url] returns the endpoint, then [?] when the
    endpoint has no [?] yet and [&] when it has one, then the query that
    serializes the merged parameters without those whose value is [None]:
    no entry that is serialized has the value [None], and a key that the
    caller sets to [None] (or that nobody sets) is no key of the query.
    So the string [None] is not in the query unless a key or a value that
    is not [None] brings it. *)
Theorem authorization_url_drops_None (self : Client) (response_type : pyval)
    (kwargs : dict) (endpoint : string) :
  dict_wf kwargs = true ->
  authorization_endpoint self = Some endpoint ->
  let params := authorization_params self response_type kwargs in
  (contains_char "?" endpoint = false ->
   _authorization_url self response_type kwargs =
   Return (endpoint ++ "?" ++ Urllib.urlencode params)) /\
  (contains_char "?" endpoint = true ->
   _authorization_url self response_type kwargs =
   Return (endpoint ++ "&" ++ Urllib.urlencode params)) /\
  (forall k v, In (k, v) params -> is_None v = false) /\
  (forall k,
     updated self response_type kwargs k = Some VNone \/
     updated self response_type kwargs k = None ->
     ~ In k (keys params)) /\
  (forall k, dict_lookup kwargs k = Some VNone -> ~ In k (keys params)) /\
  (forallb clean
     (("client_id", client_id self) :: ("response_type", response_type)
      :: kwargs) = true ->
   contains "None" (Urllib.urlencode params) = false).
Proof.
  intros Hwf He params.
  assert (forall k,
            updated self response_type kwargs k = Some VNone \/
            updated self response_type kwargs k = None ->
            ~ In k (keys params)) as Habsent.
  { intros k H. apply lookup_None_keys. unfold params.
    rewrite lookup_authorization_params by assumption.
    destruct H as [-> | ->]; reflexivity. }
  split; [|split; [|split; [|split; [|split]]]].
  - intros H. rewrite (authorization_url_serializes _ _ _ _ He).
    now rewrite H.
  - intros H. rewrite (authorization_url_serializes _ _ _ _ He).
    now rewrite H.
  - intros k v Hin.
    destruct (authorization_params_entry _ _ _ _ _ Hwf Hin)
      as (v0 & _ & Hn & ->).
    now apply normalize_at_not_None.
  - exact Habsent.
  - intros k Hk. apply Habsent. left. unfold updated. now rewrite Hk.
  - intros Hclean. apply (contains_urlencode "N" "one" eq_refl).
    intros [k v] Hin. simpl.
    destruct (authorization_params_entry _ _ _ _ _ Hwf Hin)
      as (v0 & Hu & Hn & ->).
    assert (In (k, v0)
              (("client_id", client_id self)
               :: ("response_type", response_type) :: kwargs)) as Hin0.
    { unfold updated in Hu.
      destruct (dict_lookup kwargs k) as [w|] eqn:Hk.
      - injection Hu as ->. right; right. now apply lookup_In.
      - apply lookup_In in Hu. destruct Hu as [Hu | [Hu | []]];
          [left | right; left]; exact Hu. }
    rewrite forallb_forall in Hclean. apply Hclean in Hin0.
    unfold clean in Hin0. simpl in Hin0. rewrite Hn in Hin0.
    apply andb_true_iff in Hin0 as [H1 H2].
    apply negb_true_iff in H1. simpl in H2. apply negb_true_iff in H2.
    now split.
Qed.

Lemma authorization_url_drops_None_witness :
  _authorization_url confidential_client (VStr "code")
    [("redirect_uri", VNone); ("scope", VList ["a"; "b"]); ("state", VNone)]
  = Return "https://login.example.com/authorize?tenant=t1&client_id=cid&response_type=code&scope=a+b".
Proof.
  apply (proj1 (proj2 (authorization_url_drops_None confidential_client
    (VStr "code")
    [("redirect_uri", VNone); ("scope", VList ["a"; "b"]); ("state", VNone)]
    "https://login.example.com/authorize?tenant=t1" eq_refl eq_refl))).
  reflexivity.
Defined.

Example authorization_url_question_mark :
  _authorization_url public_client (VStr "code")
    [("redirect_uri", VNone); ("scope", VNone); ("state", VStr "xyz")]
  = Return "https://login.example.com/authorize?client_id=cid&response_type=code&state=xyz".
Proof. reflexivity. Qed.

(** A value that is the string [None] is a value like any other. *)
Example authorization_url_state_named_None :
  _authorization_url public_client (VStr "code") [("state", VStr "None")]
  = Return "https://login.example.com/authorize?client_id=cid&response_type=code&state=None".
Proof. reflexivity. Qed.

(** * Further properties *)

(** ** Keywords written out and keywords passed on *)

Lemma lookup_app (d e : dict) (k : string) :
  dict_lookup (d ++ e)%list k =
  match dict_lookup d k with
  | Some v => Some v
  | None => dict_lookup e k
  end.
Proof.
  induction d as [|[k0 v0] d IH]; simpl; [reflexivity|].
  now destruct (k0 =? k).
Qed.

Lemma has_keys (d : dict) (k : string) :
  dict_has d k = true <-> In k (keys d).
Proof.
  unfold dict_has. pose proof (lookup_None_keys d k) as H.
  destruct (dict_lookup d k).
  - split; [intros _|reflexivity].
    destruct (in_dec string_dec k (keys d)) as [Hin|Hin]; [exact Hin|].
    apply H in Hin. discriminate.
  - split; [discriminate|]. intros Hin. now apply H in Hin.
Qed.

Lemma disjoint_lookup (d e : dict) (k : string) (v : pyval) :
  existsb (dict_has d) (keys e) = false ->
  dict_lookup d k = Some v -> dict_lookup e k = None.
Proof.
  intros Hex Hd.
  destruct (dict_lookup e k) as [w|] eqn:He; [|reflexivity].
  assert (In k (keys e)) as Hin
    by (apply has_keys; unfold dict_has; now rewrite He).
  assert (existsb (dict_has d) (keys e) = true) as Habs.
  { apply existsb_exists. exists k. split; [exact Hin|].
    unfold dict_has. now rewrite Hd. }
  congruence.
Qed.

Lemma wf_app (d e : dict) :
  dict_wf d = true -> dict_wf e = true ->
  existsb (dict_has d) (keys e) = false ->
  dict_wf (d ++ e)%list = true.
Proof.
  intros Hd He Hex.
  induction d as [|[k v] d IH]; [exact He|].
  apply wf_cons in Hd as [Hk Hd].
  change (((k, v) :: d) ++ e)%list with ((k, v) :: (d ++ e)%list).
  apply wf_cons_iff. split.
  - rewrite lookup_app, Hk.
    apply (disjoint_lookup ((k, v) :: d) e k v Hex).
    simpl. now rewrite String.eqb_refl.
  - apply IH; [exact Hd|].
    destruct (existsb (dict_has d) (keys e)) eqn:E; [|reflexivity].
    apply existsb_exists in E as (x & Hx & Hhas).
    assert (existsb (dict_has ((k, v) :: d)) (keys e) = true) as Habs.
    { apply existsb_exists. exists x. split; [exact Hx|].
      unfold dict_has in *. simpl. destruct (k =? x); [reflexivity|].
      exact Hhas. }
    congruence.
Qed.

Section GetTokenCall.

Variable post : Request -> Outcome Response.
Variables (self : Client) (grant_type : string) (named : dict).
Variables (query : option dict) (kwargs : dict).

Hypothesis named_wf : dict_wf named = true.
Hypothesis named_not_reserved : free_of reserved named = true.

(** A call that posts a request had no keyword twice and none of the
    reserved names, and went on to [_get_token] with all its keywords. *)
Lemma get_token_call_sent (req : Request) :
  In req (fst (get_token_call post self grant_type named query kwargs)) ->
  existsb (dict_has named) (keys kwargs) = false /\
  free_of reserved kwargs = true /\
  In req (fst (_get_token post self (VStr grant_type) query
                 (named ++ kwargs)%list)).
Proof.
  unfold get_token_call, keywords, call_get_token.
  destruct (existsb (dict_has named) (keys kwargs)) eqn:E; [intros []|].
  unfold dict_has at 1 2 3. rewrite !lookup_app.
  unfold free_of, reserved in *. simpl in *.
  unfold dict_has in named_not_reserved |- *.
  destruct (dict_lookup named "self"); [discriminate|].
  destruct (dict_lookup named "grant_type"); [discriminate|].
  destruct (dict_lookup named "query"); [discriminate|].
  destruct (dict_lookup kwargs "self"); [intros []|].
  destruct (dict_lookup kwargs "grant_type"); [intros []|].
  destruct (dict_lookup kwargs "query"); [intros []|].
  simpl. auto.
Qed.

(** The body, the query and the credentials of the request that a
    [get_token] posts. *)
Lemma get_token_call_request (req : Request) (k : string) :
  dict_wf kwargs = true ->
  dict_wf (default_body self) = true ->
  In req (fst (get_token_call post self grant_type named query kwargs)) ->
  dict_lookup (data req) k =
    option_map (normalize_at k)
      (merge_spec self (VStr grant_type) (named ++ kwargs)%list k) /\
  params req = query /\ auth req = basic_auth self /\
  token_endpoint self = Some (url req).
Proof.
  intros Hk Hd Hin.
  destruct (get_token_call_sent req Hin) as (Hdis & _ & Hsent).
  destruct (get_token_sent post self (VStr grant_type) query _ req Hsent)
    as (e & He & _ & ->). simpl.
  split; [|auto].
  apply lookup_token_body; [exact Hd|]. now apply wf_app.
Qed.

End GetTokenCall.

Section GetTokenKeywords.

Variable post : Request -> Outcome Response.
Variables (self : Client) (grant_type : string) (named : dict).
Variables (query : option dict) (kwargs : dict).

Hypothesis named_wf : dict_wf named = true.
Hypothesis named_not_reserved : free_of reserved named = true.
Hypothesis kwargs_wf : dict_wf kwargs = true.
Hypothesis default_body_wf : dict_wf (default_body self) = true.

Variable req : Request.
Hypothesis sent :
  In req (fst (get_token_call post self grant_type named query kwargs)).

Lemma normalize_at_other (k : string) (v : pyval) :
  (k =? "scope") = false -> normalize_at k v = v.
Proof. unfold normalize_at. now intros ->. Qed.

(** The grant type of the body is the one of the method, unless
    [default_body] has one. *)
Lemma get_token_call_grant_type :
  dict_lookup (data req) "grant_type" =
  default_or self "grant_type" (Some (VStr grant_type)).
Proof.
  destruct (get_token_call_request post self grant_type named query kwargs
              named_wf named_not_reserved req "grant_type"
              kwargs_wf default_body_wf sent) as [-> _].
  destruct (get_token_call_sent post self grant_type named query kwargs
              named_not_reserved req sent) as (_ & Hfree & _).
  unfold merge_spec, default_or. rewrite lookup_app.
  unfold free_of, reserved, dict_has in *. simpl in *.
  destruct (dict_lookup named "self"); [discriminate|].
  destruct (dict_lookup named "grant_type"); [discriminate|].
  destruct (dict_lookup kwargs "self"); [discriminate|].
  destruct (dict_lookup kwargs "grant_type"); [discriminate|].
  now destruct (dict_lookup (default_body self) "grant_type").
Qed.

(** A keyword that the method writes out reaches the body when its value
    is not [None], and leaves the key to [default_body] when it is. *)
Lemma get_token_call_named (k : string) (v : pyval) :
  dict_lookup named k = Some v ->
  (k =? "client_id") = false ->
  dict_lookup (data req) k =
  option_map (normalize_at k)
    (if is_None v then dict_lookup (default_body self) k else Some v).
Proof.
  intros Hv Hc.
  destruct (get_token_call_request post self grant_type named query kwargs
              named_wf named_not_reserved req k
              kwargs_wf default_body_wf sent) as [-> _].
  f_equal. unfold merge_spec. rewrite lookup_app, Hv.
  destruct (is_None v); [|reflexivity].
  destruct (dict_lookup (default_body self) k); [reflexivity|].
  cbn [dict_lookup]. rewrite (String.eqb_sym "client_id" k), Hc.
  destruct ("grant_type" =? k) eqn:E; [|reflexivity].
  apply String.eqb_eq in E; subst k.
  unfold free_of, reserved, dict_has in named_not_reserved.
  simpl in named_not_reserved. rewrite Hv in named_not_reserved.
  destruct (dict_lookup named "self"); discriminate.
Qed.

End GetTokenKeywords.

(** ** The four [get_token] *)

Lemma option_map_normalize_other (k : string) (o : option pyval) :
  (k =? "scope") = false -> option_map (normalize_at k) o = o.
Proof.
  intros H. destruct o as [v|]; [|reflexivity].
  simpl. now rewrite normalize_at_other.
Qed.

(** X9.  A keyword [grant_type] is a second value for the parameter of
    [_get_token]: every [get_token] that is given one raises a [TypeError]
    and posts nothing. *)
Theorem get_token_rejects_grant_type
    (post : Request -> Outcome Response) (self : Client)
    (query : option dict) (kwargs : dict) :
  dict_has kwargs "grant_type" = true ->
  (forall refresh_token scope,
     get_token_by_refresh_token post self refresh_token scope query kwargs
     = ([], Raise TypeError)) /\
  (forall code redirect_uri,
     AuthorizationCodeGrant_get_token post self code redirect_uri query kwargs
     = ([], Raise TypeError)) /\
  (forall username password scope,
     ResourceOwnerPasswordCredentialsGrant_get_token post self
       username password scope query kwargs = ([], Raise TypeError)) /\
  (forall scope,
     ClientCredentialGrant_get_token post self scope query kwargs
     = ([], Raise TypeError)).
Proof.
  intros H.
  assert (forall gt named,
            get_token_call post self gt named query kwargs
            = ([], Raise TypeError)) as Hcall.
  { intros gt named. unfold get_token_call, keywords.
    destruct (existsb _ _); [reflexivity|].
    unfold call_get_token.
    replace (dict_has (named ++ kwargs)%list "grant_type") with true.
    - now rewrite orb_true_r.
    - symmetry. unfold dict_has in *. rewrite lookup_app.
      destruct (dict_lookup named "grant_type"); [reflexivity | exact H]. }
  repeat split; intros; apply Hcall.
Qed.

Lemma get_token_rejects_grant_type_witness :
  ClientCredentialGrant_get_token (answer (mkResponse 200 (Some JNull)))
    public_client (VStr "a") None [("grant_type", VStr "password")]
  = ([], Raise TypeError).
Proof.
  apply (get_token_rejects_grant_type (answer (mkResponse 200 (Some JNull)))
           public_client None [("grant_type", VStr "password")] eq_refl).
Defined.

Section GetTokenRequests.

Variable post : Request -> Outcome Response.
Variables (self : Client) (query : option dict) (kwargs : dict).
Hypothesis kwargs_wf : dict_wf kwargs = true.
Hypothesis default_body_wf : dict_wf (default_body self) = true.
Variable req : Request.

(** X5.  [get_token_by_refresh_token] posts the grant type [refresh_token]
    (unless [default_body] has a grant type, which wins), the refresh token
    as given, the scope normalized, and the query as given; a refresh token
    or a scope that is [None] leaves the key to [default_body]. *)
Theorem get_token_by_refresh_token_request (refresh_token scope : pyval) :
  In req (fst (get_token_by_refresh_token post self refresh_token scope
                 query kwargs)) ->
  dict_lookup (data req) "grant_type" =
    default_or self "grant_type" (Some (VStr "refresh_token")) /\
  dict_lookup (data req) "refresh_token" =
    (if is_None refresh_token
     then dict_lookup (default_body self) "refresh_token"
     else Some refresh_token) /\
  dict_lookup (data req) "scope" =
    option_map (normalize_at "scope")
      (if is_None scope then dict_lookup (default_body self) "scope"
       else Some scope) /\
  params req = query.
Proof.
  unfold get_token_by_refresh_token. intros Hin.
  pose proof (get_token_call_grant_type post self "refresh_token"
    [("refresh_token", refresh_token); ("scope", scope)] query kwargs
    eq_refl eq_refl kwargs_wf default_body_wf req Hin) as Hg.
  pose proof (get_token_call_named post self "refresh_token"
    [("refresh_token", refresh_token); ("scope", scope)] query kwargs
    eq_refl eq_refl kwargs_wf default_body_wf req Hin) as Hn.
  pose proof (get_token_call_request post self "refresh_token"
    [("refresh_token", refresh_token); ("scope", scope)] query kwargs
    eq_refl eq_refl req "scope" kwargs_wf default_body_wf Hin)
    as (_ & Hq & Ha & _).
  split; [|split; [|split]].
  - exact Hg.
  - rewrite (Hn "refresh_token" refresh_token eq_refl eq_refl);
    now apply option_map_normalize_other.
  - exact (Hn "scope" scope eq_refl eq_refl).
  - exact Hq.
Qed.

(** X6.  [AuthorizationCodeGrant.get_token] posts the grant type
    [authorization_code] (unless [default_body] has one), the code as
    given, and the redirection URI as given when it is not [None]; when it
    is [None] the body has the one of [default_body], or none. *)
Theorem AuthorizationCodeGrant_get_token_request (code redirect_uri : pyval) :
  In req (fst (AuthorizationCodeGrant_get_token post self code redirect_uri
                 query kwargs)) ->
  dict_lookup (data req) "grant_type" =
    default_or self "grant_type" (Some (VStr "authorization_code")) /\
  dict_lookup (data req) "code" =
    (if is_None code then dict_lookup (default_body self) "code"
     else Some code) /\
  dict_lookup (data req) "redirect_uri" =
    (if is_None redirect_uri
     then dict_lookup (default_body self) "redirect_uri"
     else Some redirect_uri) /\
  params req = query.
Proof.
  unfold AuthorizationCodeGrant_get_token. intros Hin.
  pose proof (get_token_call_grant_type post self "authorization_code"
    [("code", code); ("redirect_uri", redirect_uri)] query kwargs
    eq_refl eq_refl kwargs_wf default_body_wf req Hin) as Hg.
  pose proof (get_token_call_named post self "authorization_code"
    [("code", code); ("redirect_uri", redirect_uri)] query kwargs
    eq_refl eq_refl kwargs_wf default_body_wf req Hin) as Hn.
  pose proof (get_token_call_request post self "authorization_code"
    [("code", code); ("redirect_uri", redirect_uri)] query kwargs
    eq_refl eq_refl req "scope" kwargs_wf default_body_wf Hin)
    as (_ & Hq & Ha & _).
  split; [|split; [|split]].
  - exact Hg.
  - rewrite (Hn "code" code eq_refl eq_refl);
    now apply option_map_normalize_other.
  - rewrite (Hn "redirect_uri" redirect_uri eq_refl eq_refl);
    now apply option_map_normalize_other.
  - exact Hq.
Qed.

(** X7.  [ResourceOwnerPasswordCredentialsGrant.get_token] posts the grant type
    [password] (unless [default_body] has one), the user name and the
    password as given, and the scope normalized; the credentials of the
    client go with it as for any token request. *)
Theorem ResourceOwnerPasswordCredentialsGrant_get_token_request
    (username password scope : pyval) :
  In req (fst (ResourceOwnerPasswordCredentialsGrant_get_token post self
                 username password scope query kwargs)) ->
  dict_lookup (data req) "grant_type" =
    default_or self "grant_type" (Some (VStr "password")) /\
  dict_lookup (data req) "username" =
    (if is_None username then dict_lookup (default_body self) "username"
     else Some username) /\
  dict_lookup (data req) "password" =
    (if is_None password then dict_lookup (default_body self) "password"
     else Some password) /\
  dict_lookup (data req) "scope" =
    option_map (normalize_at "scope")
      (if is_None scope then dict_lookup (default_body self) "scope"
       else Some scope) /\
  auth req = basic_auth self.
Proof.
  unfold ResourceOwnerPasswordCredentialsGrant_get_token. intros Hin.
  pose proof (get_token_call_grant_type post self "password"
    [("username", username); ("password", password); ("scope", scope)] query kwargs
    eq_refl eq_refl kwargs_wf default_body_wf req Hin) as Hg.
  pose proof (get_token_call_named post self "password"
    [("username", username); ("password", password); ("scope", scope)] query kwargs
    eq_refl eq_refl kwargs_wf default_body_wf req Hin) as Hn.
  pose proof (get_token_call_request post self "password"
    [("username", username); ("password", password); ("scope", scope)] query kwargs
    eq_refl eq_refl req "scope" kwargs_wf default_body_wf Hin)
    as (_ & Hq & Ha & _).
  split; [|split; [|split; [|split]]].
  - exact Hg.
  - rewrite (Hn "username" username eq_refl eq_refl);
    now apply option_map_normalize_other.
  - rewrite (Hn "password" password eq_refl eq_refl);
    now apply option_map_normalize_other.
  - exact (Hn "scope" scope eq_refl eq_refl).
  - exact Ha.
Qed.

End GetTokenRequests.

(** X8.  [ClientCredentialGrant.get_token] posts the grant type
    [client_credentials] (unless [default_body] has one) and the scope
    normalized.  For a client with no [default_body], called with a scope
    and nothing else, the body is the identifier of the client, the grant
    type and the scope when there is one, in this order. *)
Theorem ClientCredentialGrant_get_token_request
    (post : Request -> Outcome Response) (self : Client)
    (query : option dict) (kwargs : dict) (req : Request) (scope : pyval) :
  dict_wf kwargs = true ->
  dict_wf (default_body self) = true ->
  In req (fst (ClientCredentialGrant_get_token post self scope query kwargs)) ->
  dict_lookup (data req) "grant_type" =
    default_or self "grant_type" (Some (VStr "client_credentials")) /\
  dict_lookup (data req) "scope" =
    option_map (normalize_at "scope")
      (if is_None scope then dict_lookup (default_body self) "scope"
       else Some scope) /\
  (default_body self = [] -> kwargs = [] ->
   data req =
   ("client_id", client_id self)
   :: ("grant_type", VStr "client_credentials")
   :: (if is_None scope then []
       else [("scope", normalize_at "scope" scope)])).
Proof.
  intros kwargs_wf default_body_wf.
  unfold ClientCredentialGrant_get_token. intros Hin.
  pose proof (get_token_call_grant_type post self "client_credentials"
    [("scope", scope)] query kwargs
    eq_refl eq_refl kwargs_wf default_body_wf req Hin) as Hg.
  pose proof (get_token_call_named post self "client_credentials"
    [("scope", scope)] query kwargs
    eq_refl eq_refl kwargs_wf default_body_wf req Hin) as Hn.
  split; [|split].
  - exact Hg.
  - exact (Hn "scope" scope eq_refl eq_refl).
  - intros Hd ->.
    destruct (get_token_call_sent post self "client_credentials"
                [("scope", scope)] query [] eq_refl req Hin)
      as (_ & _ & Hsent).
    destruct (get_token_sent post self _ query _ req Hsent)
      as (e & _ & _ & ->).
    simpl. unfold token_body. rewrite Hd.
    unfold normalize_at.
    destruct scope as [|s|[|x l]|[|x l]|[|x l]|r]; try reflexivity.
    destruct s; reflexivity.
Qed.

Lemma get_token_by_refresh_token_request_witness :
  dict_lookup (data refresh_request) "grant_type" = Some (VStr "custom") /\
  dict_lookup (data refresh_request) "refresh_token" = Some (VStr "rt").
Proof.
  pose proof (get_token_by_refresh_token_request
    (answer (mkResponse 200 (Some JNull))) resource_client None []
    eq_refl eq_refl refresh_request (VStr "rt") VNone (or_introl eq_refl))
    as (H1 & H2 & _).
  split; [exact H1 | exact H2].
Defined.

Lemma AuthorizationCodeGrant_get_token_request_witness :
  dict_lookup (data code_request) "code" = Some (VStr "xyz") /\
  dict_lookup (data code_request) "redirect_uri" = None /\
  params code_request = Some [("api-version", VStr "1.0")].
Proof.
  pose proof (AuthorizationCodeGrant_get_token_request
    (answer (mkResponse 200 (Some JNull))) confidential_client
    (Some [("api-version", VStr "1.0")]) []
    eq_refl eq_refl code_request (VStr "xyz") VNone (or_introl eq_refl))
    as (_ & H1 & H2 & H3).
  split; [exact H1 | split; [exact H2 | exact H3]].
Defined.

Lemma ResourceOwnerPasswordCredentialsGrant_get_token_request_witness :
  dict_lookup (data password_request) "username" = Some (VStr "joe") /\
  dict_lookup (data password_request) "password" = Some (VStr "pw") /\
  dict_lookup (data password_request) "scope" = Some (VStr "a b").
Proof.
  pose proof (ResourceOwnerPasswordCredentialsGrant_get_token_request
    (answer (mkResponse 200 (Some JNull))) public_client None []
    eq_refl eq_refl password_request (VStr "joe") (VStr "pw")
    (VList ["a"; "b"]) (or_introl eq_refl))
    as (_ & H1 & H2 & H3 & _).
  split; [exact H1 | split; [exact H2 | exact H3]].
Defined.

Lemma ClientCredentialGrant_get_token_request_witness :
  data credentials_request =
  [("client_id", VStr "cid"); ("grant_type", VStr "client_credentials");
   ("scope", VStr "read write")].
Proof.
  apply (proj2 (proj2 (ClientCredentialGrant_get_token_request
    (answer (mkResponse 400 (Some invalid_scope))) public_client None []
    credentials_request (VStr "read write")
    eq_refl eq_refl (or_introl eq_refl))));
  reflexivity.
Defined.

(** The answer to these credentials is returned as it is, the error of a
    400 included. *)
Example ClientCredentialGrant_get_token_invalid_scope :
  ClientCredentialGrant_get_token
    (answer (mkResponse 400 (Some invalid_scope))) public_client
    (VStr "read write") None []
  = ([credentials_request], Return invalid_scope).
Proof. reflexivity. Qed.

(** ** [AuthorizationCodeGrant.authorization_url] *)

Lemma free_of_forall (names : list string) (d : dict) :
  free_of names d = true <-> forall n, In n names -> dict_has d n = false.
Proof.
  unfold free_of. rewrite forallb_forall.
  split; intros H n Hn; specialize (H n Hn).
  - now apply negb_true_iff.
  - now apply negb_true_iff.
Qed.

Lemma disjoint_keys (named kwargs : dict) :
  existsb (dict_has named) (keys kwargs) = false <->
  free_of (keys named) kwargs = true.
Proof.
  rewrite free_of_forall. split.
  - intros H n Hn.
    destruct (dict_has kwargs n) eqn:E; [|reflexivity].
    assert (existsb (dict_has named) (keys kwargs) = true) as Habs.
    { apply existsb_exists. exists n. split; now apply has_keys. }
    congruence.
  - intros H.
    destruct (existsb (dict_has named) (keys kwargs)) eqn:E; [|reflexivity].
    apply existsb_exists in E as (n & Hn & Hhas).
    apply has_keys in Hhas. apply has_keys in Hn.
    rewrite (H n Hhas) in Hn. discriminate.
Qed.

Lemma has_app (d e : dict) (k : string) :
  dict_has (d ++ e)%list k = dict_has d k || dict_has e k.
Proof.
  unfold dict_has. rewrite lookup_app. now destruct (dict_lookup d k).
Qed.

(** X10.  [AuthorizationCodeGrant.authorization_url] is [_authorization_url] for
    the response type [code], with the three keywords it writes out before
    those of the caller.  A caller cannot replace the response type: a
    keyword [response_type], like one that repeats [redirect_uri], [scope]
    or [state], raises a [TypeError], and in every URL that is returned the
    parameter [response_type] is [code]. *)
Theorem AuthorizationCodeGrant_authorization_url_code
    (self : Client) (redirect_uri scope state : pyval) (kwargs : dict) :
  dict_wf kwargs = true ->
  let named := [("redirect_uri", redirect_uri); ("scope", scope);
                ("state", state)] in
  (free_of authorization_reserved kwargs = true ->
   AuthorizationCodeGrant_authorization_url self redirect_uri scope state
     kwargs
   = _authorization_url self (VStr "code") (named ++ kwargs)%list /\
   dict_lookup
     (authorization_params self (VStr "code") (named ++ kwargs)%list)
     "response_type" = Some (VStr "code")) /\
  (free_of authorization_reserved kwargs = false ->
   AuthorizationCodeGrant_authorization_url self redirect_uri scope state
     kwargs = Raise TypeError).
Proof.
  intros Hwf named.
  assert (existsb (dict_has named) (keys kwargs) =
          negb (free_of ["redirect_uri"; "scope"; "state"] kwargs)) as Hex.
  { destruct (existsb (dict_has named) (keys kwargs)) eqn:E;
      destruct (free_of ["redirect_uri"; "scope"; "state"] kwargs) eqn:F;
      try reflexivity.
    - apply (disjoint_keys named kwargs) in F. congruence.
    - apply (disjoint_keys named kwargs) in E.
      change (keys named) with ["redirect_uri"; "scope"; "state"] in E.
      congruence. }
  assert (dict_wf kwargs = true ->
          free_of ["redirect_uri"; "scope"; "state"] kwargs = true ->
          dict_wf (named ++ kwargs)%list = true) as Hwfapp.
  { intros _ F. apply wf_app; [reflexivity | exact Hwf |].
    rewrite Hex, F. reflexivity. }
  unfold AuthorizationCodeGrant_authorization_url, keywords. fold named.
  rewrite Hex. clear Hex.
  unfold free_of, authorization_reserved in *. cbn [forallb] in *.
  destruct (dict_has kwargs "redirect_uri") eqn:H1;
    destruct (dict_has kwargs "scope") eqn:H2;
    destruct (dict_has kwargs "state") eqn:H3;
    cbn [negb andb bind] in *;
    try (split; [discriminate | reflexivity]).
  unfold call_authorization_url. rewrite !has_app.
  change (dict_has named "self") with false.
  change (dict_has named "response_type") with false.
  cbn [orb].
  destruct (dict_has kwargs "self") eqn:H4;
    destruct (dict_has kwargs "response_type") eqn:H5;
    cbn [negb andb] in *;
    try (split; [discriminate | reflexivity]).
  split; [intros _ | discriminate].
  split; [reflexivity|].
  rewrite lookup_authorization_params by auto.
  unfold updated. rewrite lookup_app.
  change (dict_lookup named "response_type") with (@None pyval).
  unfold dict_has in H5.
  destruct (dict_lookup kwargs "response_type"); [discriminate | reflexivity].
Qed.

Lemma AuthorizationCodeGrant_authorization_url_code_witness :
  AuthorizationCodeGrant_authorization_url public_client
    (VStr "http://localhost/cb") (VStr "a b") (VStr "xyz")
    [("prompt", VStr "login")]
  = Return "https://login.example.com/authorize?client_id=cid&response_type=code&redirect_uri=http%3A%2F%2Flocalhost%2Fcb&scope=a+b&state=xyz&prompt=login".
Proof.
  rewrite (proj1 (proj1 (AuthorizationCodeGrant_authorization_url_code
    public_client (VStr "http://localhost/cb") (VStr "a b") (VStr "xyz")
    [("prompt", VStr "login")] eq_refl) eq_refl)).
  reflexivity.
Defined.

Example AuthorizationCodeGrant_authorization_url_response_type :
  AuthorizationCodeGrant_authorization_url public_client VNone VNone VNone
    [("response_type", VStr "token")]
  = Raise TypeError.
Proof. reflexivity. Qed.

(** ** One request for one call *)

(** X1.  [_get_token] never posts twice, whatever the answer: it posts once
    when the token endpoint is configured and not at all when it is not,
    and what it posts goes to the token endpoint, asks for JSON and carries
    the query as given. *)
Theorem get_token_posts_once (post : Request -> Outcome Response)
    (self : Client) (grant_type : pyval) (query : option dict)
    (kwargs : dict) :
  let sent := fst (_get_token post self grant_type query kwargs) in
  length sent = (if configured (token_endpoint self) then 1 else 0) /\
  forall req, In req sent ->
    token_endpoint self = Some (url req) /\
    headers req = [("Accept", "application/json")] /\
    params req = query.
Proof.
  split.
  - unfold _get_token.
    destruct (token_endpoint self) as [e|]; [|reflexivity].
    now destruct (configured (Some e)).
  - intros req Hin.
    destruct (get_token_sent post self grant_type query kwargs req Hin)
      as (e & He & _ & ->).
    auto.
Qed.

Lemma get_token_transport_failure_witness :
  snd (_get_token unreachable public_client (VStr "client_credentials")
         None [("scope", VStr "read write")])
  = Raise RequestException.
Proof.
  apply (get_token_transport_failure unreachable public_client
           (VStr "client_credentials") None [("scope", VStr "read write")]
           credentials_request RequestException (or_introl eq_refl) eq_refl).
Defined.

(** X3.  A status of 600 or more is no error for [raise_for_status]: the
    call is the decoding of the payload, as for a status below 500. *)
Theorem get_token_status_above_599 (post : Request -> Outcome Response)
    (self : Client) (grant_type : pyval) (query : option dict)
    (kwargs : dict) (req : Request) (resp : Response) :
  In req (fst (_get_token post self grant_type query kwargs)) ->
  post req = Return resp ->
  (600 <= status_code resp)%Z ->
  snd (_get_token post self grant_type query kwargs) = Requests.json resp.
Proof.
  intros Hin Hp Hs.
  rewrite (get_token_outcome post self grant_type query kwargs req Hin), Hp.
  simpl. unfold Requests.raise_for_status.
  replace (500 <=? status_code resp)%Z with true by (symmetry; lia).
  replace (status_code resp <? 600)%Z with false by (symmetry; lia).
  now rewrite andb_false_r.
Qed.

Lemma get_token_status_above_599_witness :
  snd (_get_token (answer (mkResponse 600 (Some invalid_scope)))
         public_client (VStr "client_credentials") None
         [("scope", VStr "read write")])
  = Return invalid_scope.
Proof.
  apply (get_token_status_above_599
           (answer (mkResponse 600 (Some invalid_scope))) public_client
           (VStr "client_credentials") None [("scope", VStr "read write")]
           credentials_request (mkResponse 600 (Some invalid_scope))
           (or_introl eq_refl) eq_refl).
  simpl. lia.
Defined.

(** ** Reading a serialized query back *)

Section RoundTrip.

Import Urllib.

Lemma unquote_other (c : ascii) (s : string) :
  Ascii.eqb c "%" = false -> unquote (String c s) = String c (unquote s).
Proof.
  intros H. simpl. destruct s as [|h [|l s]]; try reflexivity.
  now rewrite H.
Qed.

Lemma unquote_escape (h l : ascii) (x y : N) (s : string) :
  hex_value h = Some x -> hex_value l = Some y ->
  unquote (String "%" (String h (String l s))) =
  String (byte (16 * x + y)) (unquote s).
Proof. intros Hh Hl. simpl. now rewrite Hh, Hl. Qed.

(** The two digits of an escape give the byte back, and neither is [+]. *)
Lemma hex2_decodes (c : ascii) :
  exists h l,
    hex2 "A" c = String h (String l "") /\
    Ascii.eqb h "+" = false /\ Ascii.eqb l "+" = false /\
    exists x y, hex_value h = Some x /\ hex_value l = Some y /\
                byte (16 * x + y) = c.
Proof.
  unfold hex2. do 2 eexists. split; [reflexivity|].
  destruct c as [[] [] [] [] [] [] [] []];
    (split; [reflexivity | split; [reflexivity |]]);
    do 2 eexists; (split; [vm_compute; reflexivity |
                   split; [vm_compute; reflexivity | reflexivity]]).
Qed.

Lemma safe_not_special (c : ascii) :
  always_safe c = true ->
  Ascii.eqb c "+" = false /\ Ascii.eqb c "%" = false /\
  Ascii.eqb c "&" = false /\ Ascii.eqb c "=" = false.
Proof.
  intros H.
  repeat split;
    (destruct (Ascii.eqb_spec c "+"); destruct (Ascii.eqb_spec c "%");
     destruct (Ascii.eqb_spec c "&"); destruct (Ascii.eqb_spec c "=");
     subst; try reflexivity; discriminate).
Qed.

Lemma decode_quote_byte (c : ascii) (rest : string) :
  unquote (plus_to_space (quote_byte c ++ rest)) =
  String c (unquote (plus_to_space rest)).
Proof.
  unfold quote_byte.
  destruct (always_safe c) eqn:Hs.
  - destruct (safe_not_special c Hs) as (Hp & Hq & _).
    cbn [append plus_to_space]. rewrite Hp. now apply unquote_other.
  - destruct (Ascii.eqb_spec c " ") as [->|Hsp].
    + cbn [append plus_to_space]. change (Ascii.eqb "+" "+") with true.
      cbv iota. now rewrite unquote_other.
    + destruct (hex2_decodes c)
        as (h & l & -> & Hh & Hl & x & y & Hx & Hy & Hc).
      cbn [append plus_to_space]. rewrite Hh, Hl.
      change (Ascii.eqb "%" "+") with false. cbv iota.
      rewrite (unquote_escape h l x y _ Hx Hy). now rewrite Hc.
Qed.

(** [unquote] undoes [quote_plus]. *)
Lemma decode_quote_plus (s : string) :
  unquote (plus_to_space (quote_plus s)) = s.
Proof.
  induction s as [|c s IH]; [reflexivity|].
  simpl quote_plus. rewrite decode_quote_byte. now rewrite IH.
Qed.

Lemma contains_char_app (c : ascii) (s t : string) :
  contains_char c (s ++ t) = contains_char c s || contains_char c t.
Proof.
  induction s as [|x s IH]; simpl; [reflexivity|].
  now rewrite IH, orb_assoc.
Qed.

(** [quote_plus] writes no [&] and no [=]. *)
Lemma quote_plus_no_delimiter (s : string) :
  contains_char "&" (quote_plus s) = false /\
  contains_char "=" (quote_plus s) = false.
Proof.
  induction s as [|c s [IH1 IH2]]; [split; reflexivity|].
  simpl quote_plus. rewrite !contains_char_app, IH1, IH2, !orb_false_r.
  destruct c as [[] [] [] [] [] [] [] []]; split; reflexivity.
Qed.

Lemma quote_plus_empty (s : string) :
  (quote_plus s =? "") = (s =? "").
Proof.
  destruct s as [|c s]; [reflexivity|].
  simpl quote_plus. unfold quote_byte.
  destruct (always_safe c); [reflexivity|].
  destruct (Ascii.eqb c " "); reflexivity.
Qed.

Lemma split_first_found (c : ascii) (s t : string) :
  contains_char c s = false ->
  split_first c (s ++ String c t) = Some (s, t).
Proof.
  induction s as [|x s IH]; simpl.
  - intros _. now rewrite Ascii.eqb_refl.
  - intros H. apply orb_false_iff in H as [Hx Hs].
    rewrite Hx, (IH Hs). reflexivity.
Qed.

Lemma split_on_none (c : ascii) (s : string) :
  contains_char c s = false -> split_on c s = [s].
Proof.
  induction s as [|x s IH]; simpl; [reflexivity|].
  intros H. apply orb_false_iff in H as [Hx Hs].
  now rewrite Hx, (IH Hs).
Qed.

Lemma split_on_found (c : ascii) (s t : string) :
  contains_char c s = false ->
  split_on c (s ++ String c t) = s :: split_on c t.
Proof.
  induction s as [|x s IH]; simpl.
  - intros _. now rewrite Ascii.eqb_refl.
  - intros H. apply orb_false_iff in H as [Hx Hs].
    now rewrite Hx, (IH Hs).
Qed.

(** Splitting at [c] undoes joining with [c] the strings that have no [c],
    when there is one at least. *)
Lemma split_join (c : ascii) (l : list string) :
  l <> [] ->
  (forall x, In x l -> contains_char c x = false) ->
  split_on c (join (String c "") l) = l.
Proof.
  induction l as [|x l IH]; [congruence|].
  intros _ H. destruct l as [|y l].
  - simpl. apply split_on_none. apply H. now left.
  - change (join (String c "") (x :: y :: l))
      with (x ++ String c (join (String c "") (y :: l))).
    rewrite split_on_found by (apply H; now left).
    f_equal. apply IH; [discriminate|].
    intros z Hz. apply H. now right.
Qed.

Lemma encode_item_no_ampersand (kv : string * pyval) :
  contains_char "&" (encode_item kv) = false.
Proof.
  unfold encode_item. rewrite !contains_char_app.
  rewrite (proj1 (quote_plus_no_delimiter (fst kv))).
  rewrite (proj1 (quote_plus_no_delimiter (py_str (snd kv)))).
  reflexivity.
Qed.

Lemma parse_encode_item (kv : string * pyval) :
  parse_field (encode_item kv) =
  if py_str (snd kv) =? "" then [] else [(fst kv, py_str (snd kv))].
Proof.
  unfold parse_field, encode_item.
  change ("=" ++ quote_plus (py_str (snd kv)))
    with (String "=" (quote_plus (py_str (snd kv)))).
  rewrite split_first_found by apply quote_plus_no_delimiter.
  rewrite quote_plus_empty.
  destruct (py_str (snd kv) =? ""); [reflexivity|].
  now rewrite !decode_quote_plus.
Qed.

(** [parse_qsl] reads from the query that [urlencode] writes the entries
    that were written, but for those whose value is empty. *)
Lemma parse_urlencode (d : dict) :
  parse_qsl (urlencode d) = printed_fields d.
Proof.
  unfold parse_qsl, urlencode, printed_fields.
  destruct d as [|kv d]; [reflexivity|].
  rewrite (split_join "&").
  - generalize (kv :: d). intros l.
    induction l as [|x l IH]; [reflexivity|].
    simpl. now rewrite parse_encode_item, IH.
  - discriminate.
  - intros x Hx. apply in_map_iff in Hx as (kv' & <- & _).
    apply encode_item_no_ampersand.
Qed.

End RoundTrip.

Lemma printed_fields_keys (d : dict) (k : string) :
  In k (map fst (printed_fields d)) -> In k (keys d).
Proof.
  unfold printed_fields.
  induction d as [|[k0 v0] d IH]; simpl; [tauto|].
  destruct (py_str v0 =? ""); simpl; [auto|].
  intros [->|H]; auto.
Qed.

Lemma printed_fields_NoDup (d : dict) :
  dict_wf d = true -> NoDup (map fst (printed_fields d)).
Proof.
  induction d as [|[k0 v0] d IH]; intros Hwf; [constructor|].
  apply wf_cons in Hwf as [Hk Hwf].
  unfold printed_fields in *. simpl.
  destruct (py_str v0 =? ""); simpl; [now apply IH|].
  constructor; [|now apply IH].
  intros Hin. apply printed_fields_keys in Hin.
  now apply lookup_None_keys in Hk.
Qed.

Lemma values_of_absent (d : dict) (k : string) :
  dict_lookup d k = None -> values_of k (printed_fields d) = [].
Proof.
  unfold values_of, printed_fields.
  induction d as [|[k0 v0] d IH]; simpl; [reflexivity|].
  destruct (k0 =? k) eqn:E; [discriminate|]. intros H.
  destruct (py_str v0 =? ""); simpl; [|rewrite E]; auto.
Qed.

Lemma values_of_printed (d : dict) (k : string) (v : pyval) :
  dict_wf d = true -> dict_lookup d k = Some v ->
  values_of k (printed_fields d) =
  if py_str v =? "" then [] else [py_str v].
Proof.
  induction d as [|[k0 v0] d IH]; intros Hwf; simpl; [discriminate|].
  apply wf_cons in Hwf as [Hk Hwf].
  destruct (k0 =? k) eqn:E.
  - intros [= ->]. apply String.eqb_eq in E; subst k0.
    pose proof (values_of_absent d k Hk) as Hd.
    unfold values_of, printed_fields in *. simpl.
    destruct (py_str v =? ""); simpl; [exact Hd|].
    rewrite String.eqb_refl. simpl. now rewrite Hd.
  - intros H. specialize (IH Hwf H).
    unfold values_of, printed_fields in *. simpl.
    destruct (py_str v0 =? ""); simpl; [|rewrite E]; exact IH.
Qed.

(** X11.  The query of the authorization URL reads back, with [parse_qsl], as
    the parameters that were serialized: no name comes twice, and a string
    that the caller gives under a key is, when it is not empty, the one
    value read under that key, whatever characters it has. *)
Theorem authorization_query_reads_back (self : Client)
    (response_type : pyval) (kwargs : dict) :
  dict_wf kwargs = true ->
  let query :=
    Urllib.urlencode (authorization_params self response_type kwargs) in
  Urllib.parse_qsl query =
    printed_fields (authorization_params self response_type kwargs) /\
  NoDup (map fst (Urllib.parse_qsl query)) /\
  (forall k s, dict_lookup kwargs k = Some (VStr s) -> s <> "" ->
               values_of k (Urllib.parse_qsl query) = [s]).
Proof.
  intros Hwf query. unfold query. rewrite parse_urlencode.
  split; [reflexivity|]. split.
  - apply printed_fields_NoDup, wf_authorization_params.
  - intros k s Hk Hs.
    rewrite (values_of_printed _ k (VStr s)).
    + simpl. destruct (String.eqb_spec s ""); [contradiction | reflexivity].
    + apply wf_authorization_params.
    + rewrite lookup_authorization_params by assumption.
      unfold updated. rewrite Hk. simpl. now rewrite normalize_at_str.
Qed.

Lemma authorization_query_reads_back_witness :
  values_of "redirect_uri"
    (Urllib.parse_qsl
       (Urllib.urlencode
          (authorization_params public_client (VStr "code")
             [("redirect_uri", VStr "http://localhost/cb?a=1&client_id=evil");
              ("state", VStr "x y+z")])))
  = ["http://localhost/cb?a=1&client_id=evil"].
Proof.
  apply (proj2 (proj2 (authorization_query_reads_back public_client
    (VStr "code")
    [("redirect_uri", VStr "http://localhost/cb?a=1&client_id=evil");
     ("state", VStr "x y+z")] eq_refl))
    "redirect_uri" "http://localhost/cb?a=1&client_id=evil" eq_refl).
  discriminate.
Defined.

(** ** Scopes split back *)

(** X12.  A collection of scopes that is not empty and whose elements have no
    space is normalized to a string that splits at the spaces into these
    elements, in order. *)
Theorem normalized_scope_splits_back (scope : pyval) (l : list string) :
  elements scope = Some l -> l <> [] ->
  (forall x, In x l -> contains_char " " x = false) ->
  exists s, _normalize_to_string scope = VStr s /\
            Urllib.split_on " " s = l.
Proof.
  intros He Hl Hsp. exists (join " " l). split.
  - destruct scope; simpl in He; try discriminate;
      injection He as ->; reflexivity.
  - now apply (split_join " ").
Qed.

Lemma normalized_scope_splits_back_witness :
  exists s, _normalize_to_string (VTuple ["openid"; "profile"]) = VStr s /\
            Urllib.split_on " " s = ["openid"; "profile"].
Proof.
  apply (normalized_scope_splits_back (VTuple ["openid"; "profile"])
           ["openid"; "profile"] eq_refl).
  - discriminate.
  - intros x [<-|[<-|[]]]; reflexivity.
Defined.

(** ** [validate_authorization] on a string *)

Lemma gathered_add_value (r : list (string * list string))
    (n v k : string) :
  gathered (Urllib.add_value r n v) k =
  if n =? k
  then Some (match gathered r k with Some vs => vs ++ [v] | None => [v] end)%list
  else gathered r k.
Proof.
  induction r as [|[n0 vs0] r IH]; simpl.
  - reflexivity.
  - destruct (n0 =? n) eqn:E0; simpl.
    + apply String.eqb_eq in E0; subst n0. now destruct (n =? k).
    + rewrite IH. destruct (n0 =? k) eqn:E1; [|reflexivity].
      apply String.eqb_eq in E1; subst n0.
      now rewrite String.eqb_sym, E0.
Qed.

Lemma gathered_fold (fields : list (string * string))
    (r : list (string * list string)) (k : string) :
  gathered
    (fold_left (fun r nv => Urllib.add_value r (fst nv) (snd nv)) fields r) k =
  match gathered r k, values_of k fields with
  | Some vs, ws => Some (vs ++ ws)%list
  | None, [] => None
  | None, ws => Some ws
  end.
Proof.
  revert r. unfold values_of.
  induction fields as [|[n v] fields IH]; intros r; simpl.
  - destruct (gathered r k); [now rewrite app_nil_r | reflexivity].
  - rewrite IH, gathered_add_value.
    destruct (n =? k); simpl.
    + destruct (gathered r k); [now rewrite <- app_assoc | reflexivity].
    + reflexivity.
Qed.

Lemma lookup_grouped (r : list (string * list string)) (k : string) :
  dict_lookup (map (fun nv => (fst nv, VList (snd nv))) r) k =
  option_map VList (gathered r k).
Proof.
  induction r as [|[n vs] r IH]; simpl; [reflexivity|].
  now destruct (n =? k).
Qed.

(** [parse_qs] gives a name the list of its values, in order. *)
Lemma lookup_parse_qs_values (qs k : string) :
  dict_lookup (Urllib.parse_qs qs) k =
  match values_of k (Urllib.parse_qsl qs) with
  | [] => None
  | v :: vs => Some (VList (v :: vs))
  end.
Proof.
  unfold Urllib.parse_qs. rewrite lookup_grouped, gathered_fold. simpl.
  now destruct (values_of k (Urllib.parse_qsl qs)).
Qed.

(** The state read from a string equals, in the sense of [==], the state
    [state_of] and no other. *)
Lemma state_of_parsed (qs : string) (state : pyval) :
  py_eq (dict_get (Urllib.parse_qs qs) "state") state = true <->
  state = state_of qs.
Proof.
  assert (dict_get (Urllib.parse_qs qs) "state" = state_of qs) as ->.
  { unfold dict_get, state_of. rewrite lookup_parse_qs_values.
    now destruct (values_of "state" (Urllib.parse_qsl qs)). }
  split.
  - intros H. symmetry. apply py_eq_eq; [|exact H].
    unfold state_of.
    destruct (values_of "state" (Urllib.parse_qsl qs));
      [left; reflexivity | right; left; eauto].
  - intros ->. apply py_eq_refl.
Qed.

(** X13.  On a string whose escapes are ASCII characters,
    [validate_authorization] returns the parsed dictionary exactly when the
    expected state is the list of all the values of [state] in the string,
    in order, or is [None] and the string has no [state]; for every other
    expected state it raises the [ValueError]. *)
Theorem validate_authorization_string_passes (qs : string) (state : pyval) :
  ascii_escapes qs = true ->
  (validate_authorization (PStr qs) state = Return (Urllib.parse_qs qs) <->
   state = state_of qs) /\
  (validate_authorization (PStr qs) state = Raise ValueError <->
   state <> state_of qs).
Proof.
  intros _.
  pose proof (state_of_parsed qs state) as Heq.
  unfold validate_authorization.
  destruct (py_eq (dict_get (Urllib.parse_qs qs) "state") state) eqn:E; simpl.
  - split; split; try congruence.
    + intros _. now apply Heq.
    + intros H. exfalso. apply H. now apply Heq.
  - split; split; try congruence.
    + intros H. apply Heq in H. discriminate.
    + intros _ H. apply Heq in H. discriminate.
Qed.

Lemma validate_authorization_string_passes_witness :
  validate_authorization (PStr "state=x%20y&code=abc&state=z")
    (VList ["x y"; "z"])
  = Return (Urllib.parse_qs "state=x%20y&code=abc&state=z").
Proof.
  apply (proj1 (validate_authorization_string_passes
                  "state=x%20y&code=abc&state=z" (VList ["x y"; "z"])
                  eq_refl)).
  reflexivity.
Defined.

Example validate_authorization_two_states :
  validate_authorization (PStr "state=a&code=c&state=b") (VList ["a"; "b"])
  = Return [("state", VList ["a"; "b"]); ("code", VList ["c"])].
Proof. reflexivity. Qed.

(** X14.  A query that carries a state, written as [urlencode] writes it, passes
    against the list of that one state, whatever characters the state has. *)
Theorem validate_authorization_encoded_state (d : dict) (s : string) :
  dict_wf d = true ->
  dict_lookup d "state" = Some (VStr s) ->
  s <> "" ->
  validate_authorization (PStr (Urllib.urlencode d)) (VList [s])
  = Return (Urllib.parse_qs (Urllib.urlencode d)).
Proof.
  intros Hwf Hs Hne.
  assert (VList [s] = state_of (Urllib.urlencode d)) as H.
  { unfold state_of. rewrite parse_urlencode.
    rewrite (values_of_printed d "state" (VStr s) Hwf Hs). simpl.
    destruct (String.eqb_spec s ""); [contradiction | reflexivity]. }
  apply state_of_parsed in H.
  unfold validate_authorization. now rewrite H.
Qed.

Lemma validate_authorization_encoded_state_witness :
  validate_authorization
    (PStr (Urllib.urlencode [("code", VStr "abc"); ("state", VStr "x&y=z %")]))
    (VList ["x&y=z %"])
  = Return (Urllib.parse_qs
              (Urllib.urlencode
                 [("code", VStr "abc"); ("state", VStr "x&y=z %")])).
Proof.
  apply (validate_authorization_encoded_state
           [("code", VStr "abc"); ("state", VStr "x&y=z %")] "x&y=z %"
           eq_refl eq_refl).
  discriminate.
Defined.

(** ** [None] in the body of a token request *)

(** X4.  A [None] of the caller never reaches the body of a token request:
    a key of the body whose value is [None] has it from [default_body], or
    from a client identifier or a grant type that is [None]. *)
Theorem token_body_None_is_configured (self : Client) (grant_type : pyval)
    (kwargs : dict) (k : string) :
  dict_wf kwargs = true ->
  dict_wf (default_body self) = true ->
  dict_lookup (token_body self grant_type kwargs) k = Some VNone ->
  (dict_lookup kwargs k = None \/ dict_lookup kwargs k = Some VNone) /\
  default_or self k
    (dict_lookup
       [("client_id", client_id self); ("grant_type", grant_type)] k)
  = Some VNone.
Proof.
  intros Hk Hd. rewrite lookup_token_body by assumption.
  unfold merge_spec, default_or.
  set (configured_value :=
         match dict_lookup (default_body self) k with
         | Some w => Some w
         | None => _
         end).
  assert (forall o, option_map (normalize_at k) o = Some VNone ->
                    o = Some VNone) as Hnone.
  { intros [v|]; simpl; [|discriminate]. intros [= H].
    destruct (is_None v) eqn:E; [now destruct v|].
    apply (normalize_at_not_None k) in E. rewrite H in E. discriminate. }
  destruct (dict_lookup kwargs k) as [v|].
  - destruct (is_None v) eqn:E.
    + intros H. apply Hnone in H. destruct v; try discriminate. auto.
    + intros H. apply Hnone in H. injection H as ->. discriminate.
  - intros H. apply Hnone in H. auto.
Qed.

Lemma token_body_None_is_configured_witness :
  (dict_lookup [("state", VNone)] "state" = None \/
   dict_lookup [("state", VNone)] "state" = Some VNone) /\
  default_or (Client_init (VStr "cid") VNone (Some [("state", VNone)]) None
                (Some "https://login.example.com/token")) "state"
    (dict_lookup
       [("client_id", VStr "cid"); ("grant_type", VStr "password")] "state")
  = Some VNone.
Proof.
  apply (token_body_None_is_configured
           (Client_init (VStr "cid") VNone (Some [("state", VNone)]) None
              (Some "https://login.example.com/token"))
           (VStr "password") [("state", VNone)] "state"
           eq_refl eq_refl eq_refl).
Defined.
